(** * Access-control and accountability core of the PHC health information
    system: a shallow embedding of the Python sources and the properties
    established about them.

    Layout: Python values and helpers ([Py]); the ORM classes, one module
    per class ([Permission], [Role], [Facility], [StaffFacility], [Staff],
    [AuditLog]); the ambient Flask state ([App]); the modules of functions,
    one per source file ([Security], [Session], [FacilityRoutes]); sample
    rows ([Sample]) and the predicates of the statements ([Props]); the
    theorems follow the definitions.

    Conventions: Python integers are [Z]; [str] is [string]; a nullable
    column or a possibly-[None] reference is an [option]; ORM collections
    and query results are lists; where a query has no [order_by] its rows
    are listed as the store yields them, and what is proved of such a list
    is membership and multiplicity; the Flask session and the submitted
    form are finite maps; JSON snapshots are association lists in
    insertion order (Python dictionaries iterate in that order). *)

From Stdlib Require Import ZArith List Bool Ascii String DecimalString Sorted.
From stdpp Require Import base option list strings gmap.
Import ListNotations.
Local Open Scope Z_scope.
Local Open Scope string_scope.

#[local] Set Warnings "-register-all".

(* ===================================================================== *)
(** ** Python values *)
(* ===================================================================== *)
Module Py.

(** The values the audit trail stores in its JSON columns.  Floating-point
    numbers are left out. *)
Inductive json : Type :=
| JNull
| JBool (b : bool)
| JInt (n : Z)
| JStr (s : string)
| JList (l : list json)
| JDict (d : list (string * json)).

(** A Python [dict] with string keys, in insertion order. *)
Abbreviation dict := (list (string * json)).

(** [d.get(k)] / [d[k]]. *)
Fixpoint dict_get (k : string) (d : dict) : option json :=
  match d with
  | [] => None
  | (k', v) :: rest => if String.eqb k' k then Some v else dict_get k rest
  end.

(** [k in d]. *)
Definition dict_contains (k : string) (d : dict) : bool :=
  match dict_get k d with Some _ => true | None => false end.

(** [for key in d]. *)
Definition dict_keys (d : dict) : list string := map fst d.

(** Python's [==] on JSON values: [True == 1], lists compare element by
    element, dictionaries compare as sets of items. *)
Fixpoint py_eq (a b : json) {struct a} : bool :=
  match a, b with
  | JNull, JNull => true
  | JBool x, JBool y => Bool.eqb x y
  | JBool x, JInt n | JInt n, JBool x => Z.eqb n (if x then 1 else 0)
  | JInt n, JInt m => Z.eqb n m
  | JStr s, JStr t => String.eqb s t
  | JList la, JList lb =>
      (fix go (la lb : list json) : bool :=
         match la, lb with
         | [], [] => true
         | x :: xs, y :: ys => py_eq x y && go xs ys
         | _, _ => false
         end) la lb
  | JDict da, JDict db =>
      (length da =? length db)%nat &&
      (fix go (da : dict) : bool :=
         match da with
         | [] => true
         | (k, v) :: rest =>
             match dict_get k db with
             | Some v' => py_eq v v'
             | None => false
             end && go rest
         end) da
  | _, _ => false
  end.

(** The values callers pass for [entity] and [entity_id]: [None], an
    integer or a string. *)
Inductive scalar : Type :=
| SNone
| SInt (n : Z)
| SStr (s : string).

(** [str(n)] for an integer. *)
Definition str_of_int (n : Z) : string := NilZero.string_of_int (Z.to_int n).

(** [f"{v}"]. *)
Definition format (v : scalar) : string :=
  match v with
  | SNone => "None"
  | SInt n => str_of_int n
  | SStr s => s
  end.

Definition is_lower (c : ascii) : bool :=
  let n := nat_of_ascii c in ((97 <=? n) && (n <=? 122))%nat.

Definition is_upper (c : ascii) : bool :=
  let n := nat_of_ascii c in ((65 <=? n) && (n <=? 90))%nat.

Definition to_upper (c : ascii) : ascii :=
  if is_lower c then ascii_of_nat (nat_of_ascii c - 32) else c.

Definition to_lower (c : ascii) : ascii :=
  if is_upper c then ascii_of_nat (nat_of_ascii c + 32) else c.

(** [str.title()] on ASCII text: a cased character is upper-cased when it
    follows an uncased one and lower-cased otherwise. *)
Fixpoint title_from (previous_is_cased : bool) (s : string) : string :=
  match s with
  | EmptyString => EmptyString
  | String c rest =>
      if is_lower c then
        String (if previous_is_cased then c else to_upper c) (title_from true rest)
      else if is_upper c then
        String (if previous_is_cased then to_lower c else c) (title_from true rest)
      else String c (title_from false rest)
  end.

Definition title (s : string) : string := title_from false s.

(** [s.endswith(suffix)]. *)
Definition endswith (s suffix : string) : bool :=
  (String.length suffix <=? String.length s)%nat &&
  String.eqb
    (substring (String.length s - String.length suffix) (String.length suffix) s)
    suffix.

(** [sep.join(parts)]. *)
Definition join (sep : string) (parts : list string) : string :=
  String.concat sep parts.

(** White space as [int] sees it in ASCII text: tab to carriage return
    (9-13), the separators 28-31 and the space. *)
Definition is_space (c : ascii) : bool :=
  let n := nat_of_ascii c in
  ((9 <=? n) && (n <=? 13) || (28 <=? n) && (n <=? 32))%nat.

(** [s.lstrip()] and [s.rstrip()] for that white space. *)
Fixpoint lstrip (s : string) : string :=
  match s with
  | EmptyString => EmptyString
  | String c rest => if is_space c then lstrip rest else s
  end.

Fixpoint rstrip (s : string) : string :=
  match s with
  | EmptyString => EmptyString
  | String c rest =>
      match rstrip rest with
      | EmptyString => if is_space c then EmptyString else String c EmptyString
      | kept => String c kept
      end
  end.

(** The digits of a decimal literal: at least one digit, single
    underscores allowed between digits only.  [after_digit] tells whether
    the character just read was a digit. *)
Fixpoint digits_value (acc : Z) (after_digit : bool) (s : string) : option Z :=
  match s with
  | EmptyString => if after_digit then Some acc else None
  | String c rest =>
      let n := nat_of_ascii c in
      if ((48 <=? n) && (n <=? 57))%nat
      then digits_value (10 * acc + Z.of_nat (n - 48)) true rest
      else if Ascii.eqb c "_"%char && after_digit
      then digits_value acc false rest
      else None
  end.

(** [int(s)] in base 10 on ASCII text: surrounding white space is dropped,
    then an optional sign and a decimal literal (leading zeros and
    digit-group underscores allowed) are read.  [None] stands for the
    exception raised otherwise ([int(None)] included). *)
Definition int_of_str (s : option string) : option Z :=
  match s with
  | None => None
  | Some text =>
      match rstrip (lstrip text) with
      | EmptyString => None
      | String c rest as body =>
          if Ascii.eqb c "-"%char then Z.opp <$> digits_value 0 false rest
          else if Ascii.eqb c "+"%char then digits_value 0 false rest
          else digits_value 0 false body
      end
  end.

(** SQLAlchemy's [unique_list]: the entities of a result, each kept at its
    first occurrence. *)
Fixpoint unique_list {A : Type} `{EqDecision A} (seen l : list A) : list A :=
  match l with
  | [] => []
  | x :: rest =>
      if decide (x ∈ seen) then unique_list seen rest
      else x :: unique_list (x :: seen) rest
  end.

End Py.

(* ===================================================================== *)
(** ** src/roles.py *)
(* ===================================================================== *)

(** [class Permission(db.Model)]: [id] is the primary key, [code] carries a
    [unique=True] constraint. *)
Module Permission.

Record t : Type := mk {
  id : Z;
  code : string;
  name : string;
  description : string
}.

#[global] Instance eq_dec : EqDecision t.
Proof. solve_decision. Defined.

End Permission.

(** [class Role(db.Model)]: [permissions] is the many-to-many relationship,
    an instrumented list of [Permission] objects. *)
Module Role.

Record t : Type := mk {
  id : Z;
  name : string;
  description : string;
  permissions : list Permission.t
}.

(** Python's [x in lst] on ORM objects: object identity, which the session's
    identity map makes coincide with being the same row. *)
Definition py_in (p : Permission.t) (l : list Permission.t) : bool :=
  bool_decide (p ∈ l).

(** [list.remove(x)]: drops the first occurrence.  (Python raises
    [ValueError] when [x] is absent; [remove_permission] guards the call.) *)
Fixpoint list_remove (p : Permission.t) (l : list Permission.t)
  : list Permission.t :=
  match l with
  | [] => []
  | q :: l' => if decide (q = p) then l' else q :: list_remove p l'
  end.

Definition set_permissions (self : t) (ps : list Permission.t) : t :=
  {| id := id self; name := name self;
     description := description self; permissions := ps |}.

(** [Role.add_permission] (roles.py:30-33). *)
Definition add_permission (self : t) (permission : Permission.t) : t :=
  if negb (py_in permission (permissions self))
  then set_permissions self (permissions self ++ [permission])
  else self.

(** [Role.remove_permission] (roles.py:35-38). *)
Definition remove_permission (self : t) (permission : Permission.t) : t :=
  if py_in permission (permissions self)
  then set_permissions self (list_remove permission (permissions self))
  else self.

(** [Role.has_permission] (roles.py:40-42):
    [any(p.code == permission_code for p in self.permissions)]. *)
Definition has_permission (self : t) (permission_code : string) : bool :=
  existsb (fun p => String.eqb (Permission.code p) permission_code)
          (permissions self).

(** Schema constraints on the rows of one store.  The association table's
    composite primary key: no permission twice in a role. *)
Definition no_duplicates (self : t) : Prop := NoDup (permissions self).

(** [Permission.code] is [unique=True]: two permission rows with the same
    code are the same row. *)
Definition codes_unique (ps : list Permission.t) : Prop :=
  forall p q, p ∈ ps -> q ∈ ps -> Permission.code p = Permission.code q -> p = q.

End Role.

(* ===================================================================== *)
(** ** src/facilities.py *)
(* ===================================================================== *)

(** [class Facility(db.Model)] (the columns the access core reads). *)
Module Facility.

Record t : Type := mk {
  id : Z;
  facility_code : string;
  name : string;
  is_active : bool
}.

#[global] Instance eq_dec : EqDecision t.
Proof. solve_decision. Defined.

(** [Facility.query.get(facility_id)]: the row with that primary key. *)
Definition query_get (facility_id : Z) (rows : list t) : option t :=
  List.find (fun f => Z.eqb (id f) facility_id) rows.

End Facility.

(** [class StaffFacility(db.Model)]: one grant row. *)
Module StaffFacility.

Record t : Type := mk {
  id : Z;
  staff_id : Z;
  facility_id : Z;
  can_access : bool;
  can_manage_staff : bool;
  can_manage_facility : bool;
  can_view_reports : bool;
  can_export_data : bool;
  assigned_by_id : option Z;
  notes : option string;
  is_active : bool
}.

#[global] Instance eq_dec : EqDecision t.
Proof. solve_decision. Defined.

(** [query.filter(...).first()]. *)
Definition first {A : Type} (rows : list A) : option A := head rows.

(** [StaffFacility.has_access] (facilities.py:153-161). *)
Definition has_access (rows : list t) (staff_id' facility_id' : Z) : bool :=
  match first (List.filter (fun g =>
                   Z.eqb (staff_id g) staff_id' &&
                   Z.eqb (facility_id g) facility_id' &&
                   Bool.eqb (can_access g) true &&
                   Bool.eqb (is_active g) true) rows) with
  | Some _ => true       (* [is not None] *)
  | None => false
  end.

(** [StaffFacility.get_staff_facilities] (facilities.py:135-142): the grant
    rows of a staff member joined with their facility, both active.  The
    query has no [order_by]: which rows come back is fixed by the source,
    in what order is left to the store.  The list below enumerates them in
    one such order; what is proved of it is membership and multiplicity. *)
Definition get_staff_facilities (rows : list t) (facilities : list Facility.t)
    (staff_id' : Z) : list t :=
  Py.unique_list [] (map fst
    (List.filter (fun gf => Bool.eqb (Facility.is_active (snd gf)) true)
       (flat_map (fun g =>
                    map (fun f => (g, f))
                        (List.filter (fun f => Z.eqb (Facility.id f) (facility_id g))
                                facilities))
          (List.filter (fun g =>
                     Z.eqb (staff_id g) staff_id' &&
                     Bool.eqb (can_access g) true &&
                     Bool.eqb (is_active g) true) rows)))).

End StaffFacility.

(* ===================================================================== *)
(** ** src/staff.py *)
(* ===================================================================== *)

(** [class Staff(db.Model, UserMixin)]: [role] is the relationship behind
    [role_id]; the guard tests it for [None]. *)
Module Staff.

Record t : Type := mk {
  id : Z;
  email : string;
  active : bool;
  role : option Role.t
}.

(** [Staff.has_facility_access] (staff.py:165-173). *)
Definition has_facility_access (self : t) (grants : list StaffFacility.t)
    (facility_id : Z) : bool :=
  match StaffFacility.first
          (List.filter (fun g =>
             Z.eqb (StaffFacility.staff_id g) (id self) &&
             Z.eqb (StaffFacility.facility_id g) facility_id &&
             Bool.eqb (StaffFacility.can_access g) true &&
             Bool.eqb (StaffFacility.is_active g) true) grants) with
  | Some _ => true
  | None => false
  end.

(** [Staff.get_accessible_facilities] (staff.py:155-163):
    [Facility.query.join(StaffFacility).filter(...).all()].  The join pairs
    each facility row with the grant rows that reference it, and [all()] on
    a single-entity query returns each entity once.  The query has no
    [order_by]: which facilities come back is fixed by the source, in what
    order is left to the store.  The list below enumerates them in one such
    order; what is proved of it is membership and multiplicity. *)
Definition get_accessible_facilities (self : t)
    (facilities : list Facility.t) (grants : list StaffFacility.t)
  : list Facility.t :=
  Py.unique_list []
    (map fst
       (List.filter (fun fg =>
                  Z.eqb (StaffFacility.staff_id (snd fg)) (id self) &&
                  Bool.eqb (StaffFacility.can_access (snd fg)) true &&
                  Bool.eqb (StaffFacility.is_active (snd fg)) true &&
                  Bool.eqb (Facility.is_active (fst fg)) true)
          (flat_map (fun f =>
                       map (fun g => (f, g))
                           (List.filter (fun g =>
                                      Z.eqb (StaffFacility.facility_id g)
                                            (Facility.id f)) grants))
             facilities))).

End Staff.

(* ===================================================================== *)
(** ** src/common.py: the audit log model *)
(* ===================================================================== *)

(** [class AuditLog(db.Model)].  [id] and [timestamp] are assigned by the
    store and are not part of the model; [actor_id] is an [option] so that
    "non-null" is a statement about the entry. *)
Module AuditLog.

Record t : Type := mk {
  actor_id : option Z;
  action : string;
  entity : Py.scalar;
  entity_id : Py.scalar;
  before_json : option Py.dict;
  after_json : option Py.dict;
  ip_address : option string;
  user_agent : option string;
  session_id : option string;
  notes : option string
}.

Definition is_create_action (self : t) : bool := String.eqb (action self) "create".
Definition is_update_action (self : t) : bool := String.eqb (action self) "update".
Definition is_delete_action (self : t) : bool := String.eqb (action self) "delete".

(** [AuditLog.has_changes] (common.py:289-291). *)
Definition has_changes (self : t) : bool :=
  match before_json self, after_json self with
  | None, None => false
  | _, _ => true
  end.

(** The loop of [change_summary] (common.py:305-308):
    [[for key in after: if key in before and before[key] != after[key]:
      changed_fields.append(key)]]. *)
Definition changed_fields (before after : Py.dict) : list string :=
  List.filter
    (fun key =>
       Py.dict_contains key before &&
       match Py.dict_get key before, Py.dict_get key after with
       | Some b, Some a => negb (Py.py_eq b a)
       | _, _ => false
       end)
    (Py.dict_keys after).

(** The truth value of a snapshot: [None] and the empty dictionary are
    falsy. *)
Definition truthy (snapshot : option Py.dict) : bool :=
  match snapshot with
  | Some (_ :: _) => true
  | _ => false
  end.

(** [AuditLog.change_summary] (common.py:293-311). *)
Definition change_summary (self : t) : option string :=
  if negb (has_changes self) then None
  else if is_create_action self then
    Some ("Created " ++ Py.format (entity self) ++ " with ID "
            ++ Py.format (entity_id self))
  else if is_delete_action self then
    Some ("Deleted " ++ Py.format (entity self) ++ " with ID "
            ++ Py.format (entity_id self))
  else if is_update_action self && truthy (before_json self)
               && truthy (after_json self) then
    Some ("Updated " ++ Py.format (entity self) ++ " "
            ++ Py.format (entity_id self) ++ ": "
            ++ Py.join ", " (changed_fields (default [] (before_json self))
                                            (default [] (after_json self))))
  else
    Some (Py.title (action self) ++ " " ++ Py.format (entity self) ++ " "
            ++ Py.format (entity_id self)).

End AuditLog.

(* ===================================================================== *)
(** ** The ambient state of a request: store, session, flashes, logger *)
(* ===================================================================== *)
Module App.

(** The tables the access core reads and writes. *)
Record Db : Type := mkDb {
  staff : list Staff.t;
  facilities : list Facility.t;
  staff_facilities : list StaffFacility.t
}.

(** Everything a request can change.  [commit_outcomes] lists what the next
    calls of [db.session.commit()] will do: [None] for success, [Some e]
    for an exception with text [e]; once the list is used up every commit
    succeeds. *)
Record World : Type := mkWorld {
  db : Db;
  audit_logs : list AuditLog.t;
  session : gmap string Z;
  flashes : list (string * string);
  logger : list string;
  commit_outcomes : list (option string)
}.

(** [flask_login.current_user]: [None] is the anonymous user, for which
    [is_authenticated] is false. *)
Record Ctx : Type := mkCtx {
  current_user : option Staff.t
}.

Definition is_authenticated (ctx : Ctx) : bool :=
  match current_user ctx with Some _ => true | None => false end.

Definition set_db (d : Db) (w : World) : World :=
  mkWorld d (audit_logs w) (session w) (flashes w) (logger w) (commit_outcomes w).

Definition set_audit_logs (l : list AuditLog.t) (w : World) : World :=
  mkWorld (db w) l (session w) (flashes w) (logger w) (commit_outcomes w).

Definition set_session (s : gmap string Z) (w : World) : World :=
  mkWorld (db w) (audit_logs w) s (flashes w) (logger w) (commit_outcomes w).

Definition set_flashes (f : list (string * string)) (w : World) : World :=
  mkWorld (db w) (audit_logs w) (session w) f (logger w) (commit_outcomes w).

Definition set_logger (l : list string) (w : World) : World :=
  mkWorld (db w) (audit_logs w) (session w) (flashes w) l (commit_outcomes w).

Definition set_commit_outcomes (o : list (option string)) (w : World) : World :=
  mkWorld (db w) (audit_logs w) (session w) (flashes w) (logger w) o.

Definition set_staff_facilities (rows : list StaffFacility.t) (d : Db) : Db :=
  mkDb (staff d) (facilities d) rows.

(** The outcome of the next [db.session.commit()], and the world once it
    has been consumed. *)
Definition next_commit (w : World) : option string * World :=
  match commit_outcomes w with
  | [] => (None, w)
  | o :: rest => (o, set_commit_outcomes rest w)
  end.

(** [flash(message, category)]. *)
Definition flash (message category : string) (w : World) : World :=
  set_flashes (flashes w ++ [(message, category)]) w.

(** What a view hands back to Flask. *)
Inductive Response : Type :=
| Abort (status : Z)
| Redirect (endpoint : string)
| Render (template : string).

(** The body of a view function, as the sequence of effects it performs:
    reading the store, committing a change (with the code run when the
    commit raises), calling [audit_log], flashing a message, returning.
    Views reach the audit table through [audit_log] only: it is the one
    place of the sources where an [AuditLog] object is built. *)
Inductive Handler : Type :=
| Return (r : Response)
| Query {A : Type} (q : Db -> A) (k : A -> Handler)
| Commit (change : Db -> Db) (k : Handler) (on_error : string -> Handler)
| AuditLogCall (action : string) (entity entity_id : Py.scalar)
               (before_data after_data : option Py.dict) (k : Handler)
| Flash (message category : string) (k : Handler).

(** A request: HTTP method and submitted form. *)
Record Request : Type := mkRequest {
  method : string;
  form : gmap string string
}.

End App.

(* ===================================================================== *)
(** ** src/security.py *)
(* ===================================================================== *)
Module Security.
Import App.

(** [PERMISSIONS] (security.py:11-73): codes with their descriptions, in
    source order. *)
Definition PERMISSIONS : list (string * string) :=
  [ ("patient_create", "Create new patients");
    ("patient_read", "View patient information");
    ("patient_update", "Update patient information");
    ("patient_delete", "Delete patient records");
    ("visit_create", "Create new visits");
    ("visit_read", "View visit information");
    ("visit_update", "Update visit information");
    ("visit_close", "Close visits");
    ("clinical_notes_create", "Create clinical notes");
    ("clinical_notes_read", "Read clinical notes");
    ("clinical_notes_update", "Update clinical notes");
    ("orders_create", "Create lab/radiology orders");
    ("orders_read", "View orders");
    ("orders_update", "Update orders");
    ("results_post", "Post lab/radiology results");
    ("prescription_create", "Create prescriptions");
    ("prescription_dispense", "Dispense medications");
    ("inventory_manage", "Manage inventory");
    ("invoice_create", "Create invoices");
    ("invoice_finalize", "Finalize invoices");
    ("payment_process", "Process payments");
    ("claims_manage", "Manage insurance claims");
    ("referral_create", "Create referrals");
    ("referral_manage", "Manage referrals");
    ("staff_manage", "Manage staff");
    ("schedule_manage", "Manage schedules");
    ("ticket_create", "Create helpdesk tickets");
    ("ticket_assign", "Assign tickets");
    ("ticket_resolve", "Resolve tickets");
    ("incident_report", "Report quality incidents");
    ("incident_manage", "Manage quality incidents");
    ("audit_conduct", "Conduct audits");
    ("workorder_create", "Create work orders");
    ("workorder_manage", "Manage work orders");
    ("asset_manage", "Manage assets");
    ("reports_view", "View reports");
    ("settings_manage", "Manage system settings");
    ("user_manage", "Manage users and roles") ].

(** [PERMISSIONS.keys()]. *)
Definition PERMISSIONS_keys : list string := map fst PERMISSIONS.

(** [ROLE_PERMISSIONS['superadmin']] (security.py:139-142):
    [[*PERMISSIONS.keys()]]. *)
Definition ROLE_PERMISSIONS_superadmin : list string := PERMISSIONS_keys.

(** [has_role] (security.py:209-214).  The Python value
    [user.role and user.role.name == role_name] is read through its truth
    value: [None] when the role is missing, a [bool] otherwise. *)
Definition has_role (user : option Staff.t) (role_name : string) : bool :=
  match user with
  | None => false
  | Some u =>
      if negb (Staff.active u) then false
      else match Staff.role u with
           | None => false
           | Some r => String.eqb (Role.name r) role_name
           end
  end.

(** [has_permission] (security.py:190-207). *)
Definition has_permission (user : option Staff.t) (permission_code : string)
  : bool :=
  match user with
  | None => false
  | Some u =>
      if negb (Staff.active u) then false
      else if has_role user "superadmin" then true
      else if has_role user "facility_head"
              && Py.endswith permission_code "_read" then true
      else match Staff.role u with
           | Some r =>
               match Role.permissions r with
               | [] => false        (* an empty collection is falsy *)
               | _ :: _ =>
                   existsb
                     (fun p => String.eqb (Permission.code p) permission_code)
                     (Role.permissions r)
               end
           | None => false
           end
  end.

(** [get_user_permissions] (security.py:216-221). *)
Definition get_user_permissions (user : option Staff.t) : list string :=
  match user with
  | None => []
  | Some u =>
      if negb (Staff.active u) then []
      else match Staff.role u with
           | None => []
           | Some r => map Permission.code (Role.permissions r)
           end
  end.

(** [audit_log] (security.py:233-253).  The entry is built only for an
    authenticated user; a commit that raises is logged and rolled back, and
    the function returns normally either way. *)
Definition audit_log (ctx : Ctx) (action : string) (entity entity_id : Py.scalar)
    (before_data after_data : option Py.dict) (w : World) : World :=
  match current_user ctx with
  | Some u =>
      let audit_entry :=
        AuditLog.mk (Some (Staff.id u)) action entity entity_id
                    before_data after_data None None None None in
      match next_commit w with
      | (None, w') => set_audit_logs (audit_logs w' ++ [audit_entry]) w'
      | (Some e, w') =>
          set_logger (logger w' ++ ["Failed to log audit trail: " ++ e]) w'
      end
  | None => w
  end.

(** Running a view body.  A commit that succeeds applies its change to the
    store; one that raises leaves the store as it was and runs the error
    branch. *)
Fixpoint run (ctx : Ctx) (h : Handler) (w : World) : Response * World :=
  match h with
  | Return r => (r, w)
  | Query q k => run ctx (k (q (db w))) w
  | Commit change k on_error =>
      match next_commit w with
      | (None, w') => run ctx k (set_db (change (db w')) w')
      | (Some e, w') => run ctx (on_error e) w'
      end
  | AuditLogCall action entity entity_id before_data after_data k =>
      run ctx k (audit_log ctx action entity entity_id before_data after_data w)
  | Flash message category k => run ctx k (flash message category w)
  end.

(** [require_permission] (security.py:145-158): the decorated function. *)
Definition require_permission (permission_code : string) (f : Handler)
    (ctx : Ctx) (w : World) : Response * World :=
  if negb (is_authenticated ctx) then (Abort 401, w)
  else if negb (has_permission (current_user ctx) permission_code)
  then (Abort 403, w)
  else run ctx f w.

(** [require_role] (security.py:160-173): the decorated function. *)
Definition require_role (role_name : string) (f : Handler)
    (ctx : Ctx) (w : World) : Response * World :=
  if negb (is_authenticated ctx) then (Abort 401, w)
  else if negb (has_role (current_user ctx) role_name) then (Abort 403, w)
  else run ctx f w.

(** The general check of the guard, in the spec's words (4.3 step 3c):
    "Allow iff the actor's assigned Role contains the permission code per
    4.2", that is [roleHasPermission] on the actor's role. *)
Definition spec_general_check (u : Staff.t) (permission_code : string) : bool :=
  match Staff.role u with
  | Some r => Role.has_permission r permission_code
  | None => false
  end.

(** "A role granted the entire Permission Catalog": every catalog code is
    among the role's permissions. *)
Definition granted_entire_catalog (r : Role.t) : Prop :=
  forall c, c ∈ PERMISSIONS_keys -> Role.has_permission r c = true.

(** The permission rows of the catalog, numbered from [next] in catalog
    order. *)
Fixpoint catalog_rows (next : Z) (entries : list (string * string))
  : list Permission.t :=
  match entries with
  | [] => []
  | (c, d) :: rest => Permission.mk next c c d :: catalog_rows (next + 1) rest
  end.

(** The superadmin role holding exactly the catalog, and an active
    superadmin. *)
Definition superadmin_role : Role.t :=
  Role.mk 17 "superadmin" "Superadmin role" (catalog_rows 1 PERMISSIONS).

Definition admin : Staff.t :=
  Staff.mk 1 "admin@healthcare.com" true (Some superadmin_role).

End Security.

(* ===================================================================== *)
(** ** src/session.py *)
(* ===================================================================== *)
Module Session.
Import App.

Definition current_facility_id : string := "current_facility_id".

(** [set_current_facility] (session.py:8-18). *)
Definition set_current_facility (ctx : Ctx) (facility_id : Z) (w : World)
  : bool * World :=
  match current_user ctx with
  | None => (false, w)
  | Some u =>
      if negb (Staff.has_facility_access u (staff_facilities (db w)) facility_id)
      then (false, w)
      else (true, set_session (<[current_facility_id := facility_id]> (session w)) w)
  end.

(** [get_current_facility] (session.py:20-34).  [not facility_id] holds for
    a missing key and for the integer 0. *)
Definition get_current_facility (ctx : Ctx) (w : World)
  : option Facility.t * World :=
  match current_user ctx with
  | None => (None, w)
  | Some u =>
      match session w !! current_facility_id with
      | None => (None, w)
      | Some facility_id =>
          if Z.eqb facility_id 0 then (None, w)
          else if negb (Staff.has_facility_access u (staff_facilities (db w))
                                                  facility_id)
          then (None, set_session (delete current_facility_id (session w)) w)
          else (Facility.query_get facility_id (facilities (db w)), w)
      end
  end.

(** [get_current_facility_id] (session.py:36-50). *)
Definition get_current_facility_id (ctx : Ctx) (w : World) : option Z * World :=
  match current_user ctx with
  | None => (None, w)
  | Some u =>
      match session w !! current_facility_id with
      | None => (None, w)
      | Some facility_id =>
          if Z.eqb facility_id 0 then (None, w)
          else if negb (Staff.has_facility_access u (staff_facilities (db w))
                                                  facility_id)
          then (None, set_session (delete current_facility_id (session w)) w)
          else (Some facility_id, w)
      end
  end.

(** [get_user_facilities] (session.py:52-57). *)
Definition get_user_facilities (ctx : Ctx) (w : World) : list Facility.t :=
  match current_user ctx with
  | None => []
  | Some u =>
      Staff.get_accessible_facilities u (facilities (db w))
                                      (staff_facilities (db w))
  end.

(** A grant is revoked for a pair when no row of the pair is both active
    and access-granting any more: the row was soft-deactivated, its
    can-access switch was cleared, or it is gone. *)
Definition revoked (staff_id facility_id : Z) (rows : list StaffFacility.t)
  : Prop :=
  forall g, g ∈ rows ->
    StaffFacility.staff_id g = staff_id ->
    StaffFacility.facility_id g = facility_id ->
    StaffFacility.can_access g && StaffFacility.is_active g = false.

End Session.

(* ===================================================================== *)
(** ** src/facility.py *)
(* ===================================================================== *)
Module FacilityRoutes.
Import App.

(** The primary key the store gives the next grant row. *)
Definition next_id (rows : list StaffFacility.t) : Z :=
  1 + fold_right Z.max 0 (map StaffFacility.id rows).

(** [data.get(field) == 'on']. *)
Definition checked (data : gmap string string) (field : string) : bool :=
  bool_decide (data !! field = Some "on").

(** [StaffFacility.query.filter_by(staff_id=..., facility_id=...).first()]:
    the lookup does not look at [is_active]. *)
Definition existing_assignment (staff_id facility_id : Z) (d : Db)
  : option StaffFacility.t :=
  StaffFacility.first
    (List.filter (fun g => Z.eqb (StaffFacility.staff_id g) staff_id &&
                           Z.eqb (StaffFacility.facility_id g) facility_id)
                 (staff_facilities d)).

(** The row built at facility.py:181-191; [is_active] takes its column
    default [True]. *)
Definition new_assignment (ctx : Ctx) (data : gmap string string)
    (staff_id facility_id : Z) (d : Db) : StaffFacility.t :=
  StaffFacility.mk (next_id (staff_facilities d)) staff_id facility_id
    (checked data "can_access")
    (checked data "can_manage_staff")
    (checked data "can_manage_facility")
    (checked data "can_view_reports")
    (checked data "can_export_data")
    (Staff.id <$> current_user ctx)
    (data !! "notes")
    true.

(** [assign_staff] (facility.py:161-208), the view body. *)
Definition assign_staff (facility_id : Z) (request : Request) (ctx : Ctx)
  : Handler :=
  Query (fun d => Facility.query_get facility_id (facilities d)) (fun found =>
  match found with
  | None => Return (Abort 404)                         (* get_or_404 *)
  | Some facility =>
      if String.eqb (method request) "POST" then
        let data := form request in
        match Py.int_of_str (data !! "staff_id") with
        | None => Return (Abort 500)                   (* int() raised *)
        | Some staff_id =>
            Query (existing_assignment staff_id facility_id) (fun existing =>
            match existing with
            | Some _ =>
                Flash "Staff member already assigned to this facility" "warning"
                  (Return (Redirect "facility.staff"))
            | None =>
                Commit
                  (fun d =>
                     set_staff_facilities
                       (staff_facilities d
                          ++ [new_assignment ctx data staff_id facility_id d]) d)
                  (AuditLogCall "facility.staff_assigned"
                     (Py.SInt (Facility.id facility))
                     (Py.SStr ("Assigned staff " ++ Py.str_of_int staff_id
                                 ++ " to facility "
                                 ++ Facility.facility_code facility))
                     None None
                     (Flash "Staff assigned successfully" "success"
                        (Return (Redirect "facility.staff"))))
                  (fun _ => Return (Abort 500))
            end)
        end
      else
        Query (fun d =>
                 let assigned_staff_ids :=
                   map StaffFacility.staff_id
                     (List.filter (fun g => Z.eqb (StaffFacility.facility_id g)
                                                  facility_id)
                                  (staff_facilities d)) in
                 List.filter (fun s => Staff.active s &&
                                       negb (bool_decide
                                               (Staff.id s ∈ assigned_staff_ids)))
                             (staff d))
          (fun available_staff => Return (Render "facility/assign_staff.html"))
  end).

(** The route as registered: [@require_role('superadmin')] around the
    body. *)
Definition assign_staff_route (facility_id : Z) (request : Request)
    (ctx : Ctx) (w : World) : Response * World :=
  Security.require_role "superadmin" (assign_staff facility_id request ctx) ctx w.


End FacilityRoutes.

(* ===================================================================== *)
(** ** Sample data used by the examples *)
(* ===================================================================== *)
Module Sample.
Import App.

Definition phc001 : Facility.t := Facility.mk 1 "PHC001" "Zeta Health Centre" true.
Definition phc002 : Facility.t := Facility.mk 2 "PHC002" "Alpha Clinic" true.
Definition closed_site : Facility.t := Facility.mk 3 "PHC003" "Closed Site" false.

Definition grant (row staff_id facility_id : Z) (active : bool)
  : StaffFacility.t :=
  StaffFacility.mk row staff_id facility_id true false false true false
                   (Some 1) None active.

Definition cashier_role : Role.t :=
  Role.mk 7 "cashier" "Cashier role"
    [ Permission.mk 21 "payment_process" "payment_process" "Process payments" ].

Definition cashier : Staff.t :=
  Staff.mk 5 "cashier@healthcare.com" true (Some cashier_role).

Definition suspended_admin : Staff.t :=
  Staff.mk 9 "former@healthcare.com" false (Some Security.superadmin_role).

Definition empty_world (d : Db) : World := mkWorld d [] ∅ [] [] [].

Definition as_user (u : Staff.t) : Ctx := mkCtx (Some u).

(** A patient snapshot as [to_dict()] produces it, reduced to four columns. *)
Definition patient_snapshot (phone : string) : Py.dict :=
  [ ("id", Py.JInt 7); ("mrn", Py.JStr "MRN000007");
    ("phone", Py.JStr phone); ("active", Py.JBool true) ].

(** A store with both open facilities and no grant rows. *)
Definition two_sites : Db := mkDb [Security.admin; cashier] [phc001; phc002] [].




(** The form posted to assign a staff member with bare access. *)
Definition assign_form (staff_id : string) : Request :=
  mkRequest "POST" (<["staff_id" := staff_id]> (<["can_access" := "on"]> ∅)).

(** A view body that commits a change and records it. *)
Definition recorded_update : Handler :=
  Commit (fun d => d)
    (AuditLogCall "payment_process" (Py.SStr "Payment") (Py.SInt 12) None None
       (Return (Redirect "cashier.index")))
    (fun _ => Return (Render "cashier/error.html")).

End Sample.

(* ===================================================================== *)
(** ** Predicates used in the statements *)
(* ===================================================================== *)
Module Props.
Import App.

(** A grant row that gives [staff_id] access to [facility_id]. *)
Definition grants_access (staff_id facility_id : Z) (g : StaffFacility.t) : Prop :=
  StaffFacility.staff_id g = staff_id /\
  StaffFacility.facility_id g = facility_id /\
  StaffFacility.can_access g = true /\
  StaffFacility.is_active g = true.

(** Entries attributed to the authenticated actor of the request. *)
Definition attributed_to (ctx : Ctx) (e : AuditLog.t) : Prop :=
  exists u, current_user ctx = Some u /\ AuditLog.actor_id e = Some (Staff.id u).

(** A response that reports failure to the caller. *)
Definition is_failure (r : Response) : Prop := exists status, r = Abort status.

(** The strict audit policy: whenever a run has committed a change to the
    store and an audit append has failed (the only writer of the error log
    is the failing branch of [audit_log]), the caller is told of a
    failure. *)
Definition audit_failure_propagates : Prop :=
  forall (ctx : Ctx) (h : Handler) (w : World),
    db (snd (Security.run ctx h w)) <> db w ->
    logger (snd (Security.run ctx h w)) <> logger w ->
    is_failure (fst (Security.run ctx h w)).


(** A row of the pair, whatever its flags. *)
Definition row_of_pair (staff_id facility_id : Z) (g : StaffFacility.t) : Prop :=
  StaffFacility.staff_id g = staff_id /\
  StaffFacility.facility_id g = facility_id.

(** The superadmin shortcut agrees with the general check on every
    permission code. *)
Definition superadmin_shortcut_equivalent : Prop :=
  forall (u : Staff.t) (r : Role.t) (permission_code : string),
    Staff.active u = true ->
    Staff.role u = Some r ->
    Role.name r = "superadmin" ->
    Security.granted_entire_catalog r ->
    Security.has_permission (Some u) permission_code
    = Security.spec_general_check u permission_code.

(** A list of facilities in non-decreasing order of name. *)
Definition sorted_by_name (l : list Facility.t) : Prop :=
  Sorted (fun a b => String.leb (Facility.name a) (Facility.name b) = true) l.

(** The listing of accessible facilities comes ordered by name. *)
Definition accessible_listing_is_ordered : Prop :=
  forall (u : Staff.t) (facilities : list Facility.t)
         (grants : list StaffFacility.t),
    sorted_by_name (Staff.get_accessible_facilities u facilities grants).

End Props.

(* ===================================================================== *)
(** ** src/facilities.py and src/staff.py: further queries *)
(* ===================================================================== *)
Module FacilityQueries.

(** [order_by(Facility.name)]: rows in non-decreasing order of name; names
    are compared as byte strings (the store's binary collation). *)
Fixpoint insert_by_name (f : Facility.t) (sorted : list Facility.t)
  : list Facility.t :=
  match sorted with
  | [] => [f]
  | g :: rest =>
      if String.leb (Facility.name f) (Facility.name g)
      then f :: g :: rest
      else g :: insert_by_name f rest
  end.

Definition order_by_name (rows : list Facility.t) : list Facility.t :=
  fold_right insert_by_name [] rows.

(** [Facility.get_active_facilities] (facilities.py:51-54). *)
Definition get_active_facilities (rows : list Facility.t) : list Facility.t :=
  order_by_name (List.filter (fun f => Bool.eqb (Facility.is_active f) true) rows).

(** [Facility.get_by_code] (facilities.py:56-59). *)
Definition get_by_code (rows : list Facility.t) (facility_code : string)
  : option Facility.t :=
  StaffFacility.first
    (List.filter (fun f => String.eqb (Facility.facility_code f) facility_code &&
                           Bool.eqb (Facility.is_active f) true) rows).

(** [Staff.find_by_email] (staff.py:113-116). *)
Definition find_by_email (rows : list Staff.t) (email : string) : option Staff.t :=
  StaffFacility.first
    (List.filter (fun s => String.eqb (Staff.email s) email) rows).

(** [Staff.get_active_staff] (staff.py:123-126). *)
Definition get_active_staff (rows : list Staff.t) : list Staff.t :=
  List.filter (fun s => Bool.eqb (Staff.active s) true) rows.

End FacilityQueries.

(* ===================================================================== *)
(** ** src/security.py: the remaining guards *)
(* ===================================================================== *)
Module SecurityChecks.
Import App Security.

(** [require_any_role] (security.py:175-188): the decorated function. *)
Definition require_any_role (role_names : list string) (f : Handler)
    (ctx : Ctx) (w : World) : Response * World :=
  if negb (is_authenticated ctx) then (Abort 401, w)
  else if negb (existsb (fun role => has_role (current_user ctx) role) role_names)
  then (Abort 403, w)
  else run ctx f w.

(** [check_api_permission] (security.py:223-231): [None] lets the endpoint
    go on; otherwise the error text of the JSON body and the status. *)
Definition check_api_permission (permission_code : string) (ctx : Ctx)
  : option (string * Z) :=
  if negb (is_authenticated ctx) then Some ("Authentication required", 401)
  else if negb (has_permission (current_user ctx) permission_code)
  then Some ("Insufficient permissions", 403)
  else None.

(** [class ClinicalNote(db.Model)] (clinical_notes.py), the columns
    [can_access_visit] filters on. *)
Record ClinicalNote : Type := mkClinicalNote {
  note_id : Z;
  visit_id : Z;
  provider_id : Z
}.

(** [can_access_visit] (security.py:285-303).  The clinical branch is only
    reached by a user for whom [has_role] answered [True], so [user.id]
    is defined there. *)
Definition can_access_visit (user : option Staff.t) (visit_id' : Z)
    (clinical_notes : list ClinicalNote) : bool :=
  if has_role user "superadmin" || has_role user "facility_head" then true
  else if has_role user "registration" then true
  else if has_role user "physician" || has_role user "dentist" then
    match user with
    | Some u =>
        match StaffFacility.first
                (List.filter (fun n => Z.eqb (provider_id n) (Staff.id u) &&
                                       Z.eqb (visit_id n) visit_id')
                             clinical_notes) with
        | Some _ => true
        | None => false
        end
    | None => false
    end
  else false.

End SecurityChecks.

(* ===================================================================== *)
(** ** src/session.py: the remaining helpers *)
(* ===================================================================== *)
Module SessionGuards.
Import App.

(** [require_facility_access] (session.py:59-70): the decorated function.
    [get_current_facility] runs first and may drop a stale selection
    before the warning is flashed. *)
Definition require_facility_access (f : Handler) (ctx : Ctx) (w : World)
  : Response * World :=
  match Session.get_current_facility ctx w with
  | (Some _, w') => Security.run ctx f w'
  | (None, w') =>
      (Redirect "facility.select",
       flash "Please select a facility to continue" "warning" w')
  end.

(** [filter_by_facility] (session.py:72-78).  [facility_id_column] is the
    model's [facility_id] attribute when it has one ([hasattr]); a row
    whose column is NULL matches no id. *)
Definition filter_by_facility {A : Type} (facility_id_column : option (A -> option Z))
    (query : list A) (facility_id : option Z) : list A :=
  match facility_id with
  | Some fid =>
      if Z.eqb fid 0 then query            (* [if facility_id:] *)
      else match facility_id_column with
           | Some column =>
               List.filter (fun row => match column row with
                                       | Some v => Z.eqb v fid
                                       | None => false
                                       end) query
           | None => query
           end
  | None => query
  end.

End SessionGuards.

(* ===================================================================== *)
(** ** src/facility.py: selecting and switching the facility *)
(* ===================================================================== *)
Module FacilityViews.
Import App.

(** [select] (facility.py:15-31), the view body. *)
Definition select (ctx : Ctx) (w : World) : Response * World :=
  match Session.get_user_facilities ctx w with
  | [] =>
      (Redirect "auth.logout",
       flash "You do not have access to any facilities" "error" w)
  | [only] =>
      let w1 := snd (Session.set_current_facility ctx (Facility.id only) w) in
      (Redirect "dashboard.index",
       flash ("Welcome to " ++ Facility.name only) "success" w1)
  | _ :: _ :: _ => (Render "facility/select.html", w)
  end.

(** [switch] (facility.py:33-43), the view body.  When the selection
    succeeded but the facility row is missing, [facility.name] raises. *)
Definition switch (facility_id : Z) (ctx : Ctx) (w : World) : Response * World :=
  match Session.set_current_facility ctx facility_id w with
  | (true, w1) =>
      match Facility.query_get facility_id (facilities (db w1)) with
      | Some facility =>
          (Redirect "dashboard.index",
           flash ("Switched to " ++ Facility.name facility) "success" w1)
      | None => (Abort 500, w1)
      end
  | (false, w1) =>
      (Redirect "facility.select",
       flash "Access denied to this facility" "error" w1)
  end.

End FacilityViews.

(* ===================================================================== *)
(** ** src/auth.py: login and logout *)
(* ===================================================================== *)
Module AuthViews.
Import App.

(** The truth value of a form field: missing and empty are falsy. *)
Definition provided (field : option string) : bool :=
  match field with
  | Some (String _ _) => true
  | _ => false
  end.

(** [s.startswith(prefix)]. *)
Definition startswith (s prefix : string) : bool :=
  String.eqb (substring 0 (String.length prefix) s) prefix.

(** [request.remote_addr] as a JSON value. *)
Definition ip_json (remote_addr : option string) : Py.json :=
  match remote_addr with
  | Some ip => Py.JStr ip
  | None => Py.JNull
  end.

(** Flask-Login's answer to an anonymous request for a [@login_required]
    view, with the settings of extensions.py:34-36. *)
Definition unauthorized (w : World) : Response * World :=
  (Redirect "auth.login", flash "Please log in to access this page." "info" w).

Section Credentials.

(** [Staff.check_password] (the hash comparison of werkzeug) and the
    [name] column of the staff row. *)
Variable check_password : Staff.t -> string -> bool.
Variable staff_name : Staff.t -> string.

(** [login] (auth.py:14-59).  The result carries the request's user after
    the view: [login_user] installs the staff member as [current_user]. *)
Definition login (request : Request) (args : gmap string string)
    (remote_addr : option string) (ctx : Ctx) (w : World)
  : Response * World * Ctx :=
  if is_authenticated ctx then (Redirect "dashboard.index", w, ctx)
  else if String.eqb (method request) "POST" then
    let email := form request !! "email" in
    let password := form request !! "password" in
    if negb (provided email) || negb (provided password) then
      (Render "auth/login.html",
       flash "Please provide both email and password." "error" w, ctx)
    else
      let user := FacilityQueries.find_by_email (staff (db w)) (default "" email) in
      match user with
      | Some u =>
          if check_password u (default "" password) && Staff.active u then
            let ctx' := mkCtx (Some u) in                      (* login_user *)
            let w1 :=
              Security.audit_log ctx' "login" (Py.SStr "staff")
                (Py.SInt (Staff.id u)) None
                (Some [("success", Py.JBool true); ("ip", ip_json remote_addr)])
                w in
            let next_page :=
              match args !! "next" with
              | Some next =>
                  if provided (Some next) && startswith next "/" then next
                  else "dashboard.index"
              | None => "dashboard.index"
              end in
            (Redirect next_page,
             flash ("Welcome back, " ++ staff_name u ++ "!") "success" w1, ctx')
          else
            let w1 :=
              Security.audit_log ctx "login" (Py.SStr "staff")
                (Py.SInt (Staff.id u)) None
                (Some [("success", Py.JBool false); ("ip", ip_json remote_addr);
                       ("reason", Py.JStr "invalid_password")])
                w in
            (Render "auth/login.html",
             flash "Invalid email or password." "error" w1, ctx)
      | None =>
          (Render "auth/login.html",
           flash "Invalid email or password." "error" w, ctx)
      end
  else (Render "auth/login.html", w, ctx).

End Credentials.

(** [logout] (auth.py:61-78) behind [@login_required]: [logout_user]
    makes [current_user] anonymous before [audit_log] is called. *)
Definition logout (remote_addr : option string) (ctx : Ctx) (w : World)
  : Response * World * Ctx :=
  match current_user ctx with
  | None => (unauthorized w, ctx)
  | Some u =>
      let user_id := Staff.id u in
      let ctx' := mkCtx None in                                (* logout_user *)
      let w1 :=
        Security.audit_log ctx' "logout" (Py.SStr "staff") (Py.SInt user_id)
          None (Some [("ip", ip_json remote_addr)]) w in
      (Redirect "auth.login",
       flash "You have been logged out successfully." "info" w1, ctx')
  end.

End AuthViews.

(* ===================================================================== *)
(** ** Further predicates used in the statements *)
(* ===================================================================== *)
Module Invariants.
Import App.

(** The [uq_staff_facility] constraint of facilities.py:128-130: no two
    grant rows share their (staff, facility) pair. *)
Definition pairs_unique (rows : list StaffFacility.t) : Prop :=
  NoDup (map (fun g => (StaffFacility.staff_id g, StaffFacility.facility_id g))
             rows).

(** An audit entry without request metadata. *)
Definition no_request_metadata (e : AuditLog.t) : Prop :=
  AuditLog.ip_address e = None /\ AuditLog.user_agent e = None /\
  AuditLog.session_id e = None /\ AuditLog.notes e = None.

(** The facility-code column is [unique=True]. *)
Definition facility_codes_unique (rows : list Facility.t) : Prop :=
  forall f g, f ∈ rows -> g ∈ rows ->
              Facility.facility_code f = Facility.facility_code g -> f = g.

(** The primary key of the facility table. *)
Definition facility_ids_unique (rows : list Facility.t) : Prop :=
  forall f g, f ∈ rows -> g ∈ rows -> Facility.id f = Facility.id g -> f = g.

(** JSON values whose dictionaries have no repeated key, as Python builds
    them. *)
Fixpoint well_formed (v : Py.json) : Prop :=
  match v with
  | Py.JList l =>
      (fix all (l : list Py.json) : Prop :=
         match l with
         | [] => True
         | x :: rest => well_formed x /\ all rest
         end) l
  | Py.JDict d =>
      NoDup (map fst d) /\
      (fix all (d : list (string * Py.json)) : Prop :=
         match d with
         | [] => True
         | (_, x) :: rest => well_formed x /\ all rest
         end) d
  | _ => True
  end.

End Invariants.

(* ===================================================================== *)
(** * Properties *)
(* ===================================================================== *)

Local Open Scope list_scope.
Import Props.

(** ** Grant ledger queries *)
Section LedgerFacts.

Lemma first_filter_some {A : Type} (P : A -> bool) (l : list A) :
  (exists x, StaffFacility.first (List.filter P l) = Some x) <->
  (exists x, x ∈ l /\ P x = true).
Proof.
  unfold StaffFacility.first. split.
  - intros [x Hx]. exists x.
    assert (In x (List.filter P l)) as Hin.
    { destruct (List.filter P l); simpl in Hx; [discriminate|].
      injection Hx as ->. now left. }
    apply filter_In in Hin. destruct Hin as [Hin HP].
    split; [now apply list_elem_of_In | exact HP].
  - intros [x [Hin HP]]. apply list_elem_of_In in Hin.
    assert (In x (List.filter P l)) as Hf by (apply filter_In; auto).
    destruct (List.filter P l) as [|y ys]; [destruct Hf|].
    exists y. reflexivity.
Qed.

Lemma eqb_true_iff_bool (b : bool) : Bool.eqb b true = true <-> b = true.
Proof. destruct b; simpl; intuition congruence. Qed.

(** What [has_access] decides: an active, access-granting row of the pair
    exists.  The facility row is not consulted. *)
Lemma has_access_iff (rows : list StaffFacility.t) (a f : Z) :
  StaffFacility.has_access rows a f = true <->
  exists g, g ∈ rows /\ grants_access a f g.
Proof.
  unfold StaffFacility.has_access, grants_access.
  set (P := fun g : StaffFacility.t => _).
  split.
  - intros H. destruct (StaffFacility.first (List.filter P rows)) eqn:E;
      [|discriminate].
    destruct (proj1 (first_filter_some P rows)) as [g [Hin HP]]; [eauto|].
    exists g. split; [exact Hin|]. subst P. simpl in HP.
    rewrite !andb_true_iff, !eqb_true_iff_bool, !Z.eqb_eq in HP. tauto.
  - intros [g [Hin (H1 & H2 & H3 & H4)]].
    destruct (proj2 (first_filter_some P rows)) as [y Hy].
    + exists g. split; [exact Hin|]. subst P. simpl.
      rewrite H1, H2, H3, H4, !Z.eqb_refl. reflexivity.
    + now rewrite Hy.
Qed.

Lemma has_facility_access_eq (u : Staff.t) (rows : list StaffFacility.t) (f : Z) :
  Staff.has_facility_access u rows f = StaffFacility.has_access rows (Staff.id u) f.
Proof. reflexivity. Qed.

Lemma has_facility_access_iff (u : Staff.t) (rows : list StaffFacility.t) (f : Z) :
  Staff.has_facility_access u rows f = true <->
  exists g, g ∈ rows /\ grants_access (Staff.id u) f g.
Proof. rewrite has_facility_access_eq. apply has_access_iff. Qed.

End LedgerFacts.

(** ** C1: facility access check *)
Section AccessCheck.
Import App Sample.

(** C1.  At a store holding the deactivated facility 3 and an active,
    access-granting grant row of staff member 5 for it, both
    [StaffFacility.has_access] and [Staff.has_facility_access] answer
    [True] although the facility itself is inactive, while the sibling
    queries [Staff.get_accessible_facilities] and
    [StaffFacility.get_staff_facilities], which do test
    [Facility.is_active], leave the facility out.  The session selector,
    which relies on the check, accepts the deactivated facility and serves
    it as the current one. *)
Theorem has_access_ignores_facility_status :
  let rows := [grant 1 5 3 true] in
  let w := empty_world (mkDb [cashier] [phc001; closed_site] rows) in
  Facility.query_get 3 [phc001; closed_site] = Some closed_site /\
  Facility.is_active closed_site = false /\
  StaffFacility.has_access rows 5 3 = true /\
  Staff.has_facility_access cashier rows 3 = true /\
  Staff.get_accessible_facilities cashier [phc001; closed_site] rows = [] /\
  StaffFacility.get_staff_facilities rows [phc001; closed_site] 5 = [] /\
  fst (Session.set_current_facility (as_user cashier) 3 w) = true /\
  fst (Session.get_current_facility (as_user cashier)
         (snd (Session.set_current_facility (as_user cashier) 3 w)))
  = Some closed_site.
Proof. vm_compute. repeat split; reflexivity. Qed.

End AccessCheck.

(** ** C2: inactive actors *)
Section InactiveActors.
Import App Security.

(** C2.  For an actor whose [active] flag is false, [has_permission] and
    [has_role] return [False] for every permission code and every role
    name, whatever role the actor holds and whatever that role contains;
    the decorators built on them answer 403 without running the view. *)
Theorem inactive_actor_is_denied (u : Staff.t) (permission_code role_name : string)
    (f : Handler) (w : World) :
  Staff.active u = false ->
  has_permission (Some u) permission_code = false /\
  has_role (Some u) role_name = false /\
  require_permission permission_code f (mkCtx (Some u)) w = (Abort 403, w) /\
  require_role role_name f (mkCtx (Some u)) w = (Abort 403, w).
Proof.
  intros Hinactive.
  assert (has_permission (Some u) permission_code = false) as Hp.
  { unfold has_permission. now rewrite Hinactive. }
  assert (has_role (Some u) role_name = false) as Hr.
  { unfold has_role. now rewrite Hinactive. }
  repeat split; try assumption.
  - unfold require_permission, is_authenticated. cbn [current_user negb].
    now rewrite Hp.
  - unfold require_role, is_authenticated. cbn [current_user negb].
    now rewrite Hr.
Qed.

Lemma inactive_actor_is_denied_witness :
  Staff.active Sample.suspended_admin = false /\
  has_permission (Some Sample.suspended_admin) "patient_read" = false /\
  has_role (Some Sample.suspended_admin) "superadmin" = false.
Proof.
  split; [reflexivity|].
  destruct (inactive_actor_is_denied Sample.suspended_admin "patient_read"
              "superadmin" (Return (Render "x")) (Sample.empty_world (mkDb [] [] [])))
    as (H1 & H2 & _); [reflexivity|].
  split; assumption.
Defined.

End InactiveActors.

(** ** C3: guarded handlers and the audit trail *)
Section GuardedHandlers.
Import App Security.

Lemma next_commit_frame (w : World) :
  let w' := snd (next_commit w) in
  db w' = db w /\ audit_logs w' = audit_logs w /\ session w' = session w /\
  flashes w' = flashes w /\ logger w' = logger w.
Proof. unfold next_commit. destruct (commit_outcomes w); simpl; auto. Qed.

Lemma audit_log_appends (ctx : Ctx) action entity entity_id before_data after_data
    (w : World) :
  exists created,
    audit_logs (audit_log ctx action entity entity_id before_data after_data w)
      = (audit_logs w ++ created)%list /\
    Forall (attributed_to ctx) created.
Proof.
  unfold audit_log. destruct (current_user ctx) as [u|] eqn:Hu.
  - destruct (next_commit_frame w) as (_ & Hlogs & _).
    destruct (next_commit w) as [[e|] w']; simpl in *.
    + exists []. rewrite app_nil_r. split; [assumption | constructor].
    + eexists [_]. rewrite Hlogs. split; [reflexivity|].
      constructor; [|constructor]. exists u. split; [assumption|reflexivity].
  - exists []. rewrite app_nil_r. split; [reflexivity | constructor].
Qed.

(** Whatever a view body does, the audit trail only grows, and only by
    entries attributed to the request's actor. *)
Lemma run_appends (ctx : Ctx) (h : Handler) :
  forall w, exists created,
    audit_logs (snd (run ctx h w)) = (audit_logs w ++ created)%list /\
    Forall (attributed_to ctx) created.
Proof.
  induction h as [r | A q k IH | change k IHk on_error IHe
                 | action entity entity_id b a k IH | message category k IH];
    intros w; simpl.
  - exists []. rewrite app_nil_r. split; [reflexivity | constructor].
  - apply IH.
  - destruct (next_commit_frame w) as (_ & Hlogs & _).
    destruct (next_commit w) as [[e|] w']; simpl in *.
    + destruct (IHe e w') as [c [Hc Hf]]. exists c. now rewrite Hc, Hlogs.
    + destruct (IHk (set_db (change (db w')) w')) as [c [Hc Hf]].
      exists c. rewrite Hc. simpl. now rewrite Hlogs.
  - destruct (audit_log_appends ctx action entity entity_id b a w) as [c1 [H1 F1]].
    destruct (IH (audit_log ctx action entity entity_id b a w)) as [c2 [H2 F2]].
    exists (c1 ++ c2). rewrite H2, H1, <- app_assoc. split; [reflexivity|].
    apply Forall_app. split; assumption.
  - destruct (IH (flash message category w)) as [c [Hc Hf]].
    exists c. now rewrite Hc.
Qed.

(** C3.  For every view body behind [require_permission]: when the request
    is denied (no authenticated user, or the permission is missing) the
    answer is an abort and the world is untouched, so the body did not run
    and no audit entry was created; an authenticated actor holding the
    permission gets the body run; in every run, the audit trail grows only
    by entries whose [actor_id] is non-null and is the id of the
    authenticated actor. *)
Theorem guarded_handler_audit_attribution (permission_code : string)
    (f : Handler) (ctx : Ctx) (w : World) :
  (is_authenticated ctx = false \/
   has_permission (current_user ctx) permission_code = false ->
     (fst (require_permission permission_code f ctx w) = Abort 401 \/
      fst (require_permission permission_code f ctx w) = Abort 403) /\
     snd (require_permission permission_code f ctx w) = w) /\
  (is_authenticated ctx = true ->
   has_permission (current_user ctx) permission_code = true ->
     require_permission permission_code f ctx w = run ctx f w) /\
  exists created,
    audit_logs (snd (require_permission permission_code f ctx w))
      = (audit_logs w ++ created)%list /\
    forall e, e ∈ created ->
      exists u, current_user ctx = Some u /\
                AuditLog.actor_id e = Some (Staff.id u).
Proof.
  unfold require_permission. split; [|split].
  - intros [Hanon | Hperm].
    + rewrite Hanon. simpl. auto.
    + destruct (is_authenticated ctx); simpl; [|auto].
      rewrite Hperm. simpl. auto.
  - intros Hauth Hperm. now rewrite Hauth, Hperm.
  - destruct (negb (is_authenticated ctx));
      [| destruct (negb (has_permission (current_user ctx) permission_code))].
    + exists []. simpl. rewrite app_nil_r. split; [reflexivity|].
      intros e He. inversion He.
    + exists []. simpl. rewrite app_nil_r. split; [reflexivity|].
      intros e He. inversion He.
    + destruct (run_appends ctx f w) as [c [Hc Hf]]. exists c.
      split; [assumption|]. intros e He.
      rewrite Forall_forall in Hf. apply Hf in He. exact He.
Qed.

End GuardedHandlers.

Section GuardedHandlersExamples.
Import App Security Sample.

Lemma guarded_handler_audit_attribution_witness :
  has_permission (Some cashier) "invoice_create" = false /\
  snd (require_permission "invoice_create" recorded_update (as_user cashier)
         (empty_world two_sites)) = empty_world two_sites /\
  exists u, current_user (as_user cashier) = Some u /\
            Some (Staff.id cashier) = Some (Staff.id u).
Proof.
  split; [reflexivity|]. split.
  - destruct (guarded_handler_audit_attribution "invoice_create" recorded_update
                (as_user cashier) (empty_world two_sites)) as [Hdenied _].
    apply Hdenied. right. reflexivity.
  - destruct (guarded_handler_audit_attribution "payment_process" recorded_update
                (as_user cashier) (empty_world two_sites))
      as [_ [_ [created [Hcreated Hall]]]].
    vm_compute in Hcreated. subst created.
    destruct (Hall _ (list_elem_of_here _ _)) as [u [Hu Hid]].
    exists u. split; [exact Hu | exact Hid].
Defined.

End GuardedHandlersExamples.

(** ** C4: a failed audit append *)
Section AuditFailure.
Import App Security Sample.

(** C4 as stated fails: the superadmin assigns staff member 5 to facility
    1; the grant commit succeeds, the audit commit raises; the view still
    answers with its success redirect, the grant row is stored, and no
    audit entry exists. *)
Lemma audit_failure_does_not_propagate : ~ audit_failure_propagates.
Proof.
  intros Hspec.
  pose (w := mkWorld two_sites [] ∅ [] [] [None; Some "connection lost"]).
  specialize (Hspec (as_user admin)
                (FacilityRoutes.assign_staff 1 (assign_form "5") (as_user admin)) w).
  assert (fst (run (as_user admin)
                 (FacilityRoutes.assign_staff 1 (assign_form "5") (as_user admin)) w)
          = Redirect "facility.staff") as Hr by (vm_compute; reflexivity).
  rewrite Hr in Hspec.
  destruct Hspec as [status Hstatus]; [| | discriminate Hstatus].
  - vm_compute. discriminate.
  - vm_compute. discriminate.
Qed.

(** C4, amended.  When the audit commit raises inside an authenticated
    request, [audit_log] records the error in the application log, leaves
    the store and the audit trail as they were (so an earlier committed
    mutation stays committed and stays without an entry), and returns
    normally: the view continues with the code after the call. *)
Theorem audit_log_failure_is_swallowed (ctx : Ctx) (u : Staff.t)
    (action : string) (entity entity_id : Py.scalar)
    (before_data after_data : option Py.dict)
    (w : World) (e : string) (rest : list (option string)) :
  current_user ctx = Some u ->
  commit_outcomes w = Some e :: rest ->
  let w' := audit_log ctx action entity entity_id before_data after_data w in
  db w' = db w /\
  audit_logs w' = audit_logs w /\
  logger w' = logger w ++ [("Failed to log audit trail: " ++ e)%string] /\
  commit_outcomes w' = rest /\
  forall k, run ctx (AuditLogCall action entity entity_id before_data after_data k) w
            = run ctx k w'.
Proof.
  intros Hu Hout.
  assert (audit_log ctx action entity entity_id before_data after_data w
          = set_logger (logger w ++ [("Failed to log audit trail: " ++ e)%string])
              (set_commit_outcomes rest w)) as Heq.
  { unfold audit_log, next_commit. now rewrite Hu, Hout. }
  cbv zeta. rewrite Heq. simpl. repeat split; try reflexivity.
  intros k. now rewrite Heq.
Qed.

Lemma audit_log_failure_is_swallowed_witness :
  let w := mkWorld two_sites [] ∅ [] [] [Some "connection lost"] in
  let w' := audit_log (as_user cashier) "payment_process" (Py.SStr "Payment")
              (Py.SInt 12) None None w in
  audit_logs w' = [] /\
  logger w' = ["Failed to log audit trail: connection lost"].
Proof.
  destruct (audit_log_failure_is_swallowed (as_user cashier) cashier
              "payment_process" (Py.SStr "Payment") (Py.SInt 12) None None
              (mkWorld two_sites [] ∅ [] [] [Some "connection lost"])
              "connection lost" [] eq_refl eq_refl) as (_ & Hlogs & Hlogger & _).
  split; [exact Hlogs | exact Hlogger].
Defined.

End AuditFailure.

(** ** C5: the session selector re-validates on every read *)
Section SessionSelector.
Import App Session Sample.

Lemma revoked_no_access (u : Staff.t) (F : Z) (rows : list StaffFacility.t) :
  revoked (Staff.id u) F rows -> Staff.has_facility_access u rows F = false.
Proof.
  intros Hrev. destruct (Staff.has_facility_access u rows F) eqn:E; [|reflexivity].
  apply has_facility_access_iff in E. destruct E as [g [Hin (H1 & H2 & H3 & H4)]].
  specialize (Hrev g Hin H1 H2). rewrite H3, H4 in Hrev. discriminate.
Qed.

Lemma set_current_facility_true (ctx : Ctx) (F : Z) (w w1 : World) :
  set_current_facility ctx F w = (true, w1) ->
  exists u, current_user ctx = Some u /\
            Staff.has_facility_access u (staff_facilities (db w)) F = true /\
            w1 = set_session (<[current_facility_id := F]> (session w)) w.
Proof.
  unfold set_current_facility. destruct (current_user ctx) as [u|]; [|discriminate].
  destruct (Staff.has_facility_access u (staff_facilities (db w)) F) eqn:Hacc;
    simpl; [|discriminate].
  intros H. injection H as <-. exists u. repeat split; [exact Hacc].
Qed.

(** C5.  After [set_current_facility ctx F] has succeeded, for every later
    state of the store in which the grant of the actor for [F] is revoked,
    [get_current_facility] answers [None], never the stale facility, and
    the stored selection is removed from the session.  Facility ids are
    primary keys that the store issues from 1, and a selection is always
    made with the id of a facility row, so [F] is never 0; the answer
    [None] is proved for every [F], the removal for every [F] that is not
    0 (the only id that [if not facility_id] would answer before the
    access check). *)
Theorem revoked_selection_is_dropped (ctx : Ctx) (u : Staff.t) (F : Z)
    (w w1 : World) (d' : Db) :
  current_user ctx = Some u ->
  set_current_facility ctx F w = (true, w1) ->
  revoked (Staff.id u) F (staff_facilities d') ->
  fst (get_current_facility ctx (set_db d' w1)) = None /\
  (F <> 0 ->
   session (snd (get_current_facility ctx (set_db d' w1)))
     !! current_facility_id = None).
Proof.
  intros Hu Hset Hrev.
  destruct (set_current_facility_true ctx F w w1 Hset) as [u' [Hu' [_ ->]]].
  assert (u' = u) as -> by congruence.
  unfold get_current_facility. rewrite Hu. simpl.
  rewrite lookup_insert_eq.
  destruct (Z.eqb_spec F 0) as [->|Hnz].
  - split; [reflexivity | intros Hne; now destruct Hne].
  - rewrite (revoked_no_access u F _ Hrev). simpl.
    split; [reflexivity | intros _; apply lookup_delete_eq].
Qed.

Lemma revoked_selection_is_dropped_witness :
  let w := empty_world (mkDb [cashier] [phc001] [grant 1 5 1 true]) in
  let d' := mkDb [cashier] [phc001] [grant 1 5 1 false] in
  let w1 := snd (set_current_facility (as_user cashier) 1 w) in
  session w1 !! current_facility_id = Some 1 /\
  fst (get_current_facility (as_user cashier) (set_db d' w1)) = None /\
  session (snd (get_current_facility (as_user cashier) (set_db d' w1)))
    !! current_facility_id = None.
Proof.
  cbv zeta. split; [vm_compute; reflexivity|].
  destruct (revoked_selection_is_dropped (as_user cashier) cashier 1
              (empty_world (mkDb [cashier] [phc001] [grant 1 5 1 true]))
              (snd (set_current_facility (as_user cashier) 1
                      (empty_world (mkDb [cashier] [phc001] [grant 1 5 1 true]))))
              (mkDb [cashier] [phc001] [grant 1 5 1 false])
              eq_refl eq_refl) as [Hnone Hclear].
  - intros g Hg _ _. apply list_elem_of_singleton in Hg. subst g. reflexivity.
  - split; [exact Hnone | apply Hclear; discriminate].
Defined.

End SessionSelector.

(** ** C6: creating grants *)
Section GrantCreation.
Import App Security FacilityRoutes Sample.

Lemma existing_assignment_some (sid F : Z) (d : Db) :
  (exists g, existing_assignment sid F d = Some g) <->
  (exists g, g ∈ staff_facilities d /\ row_of_pair sid F g).
Proof.
  unfold existing_assignment. rewrite first_filter_some.
  split; intros [g [Hin H]]; exists g; (split; [exact Hin|]).
  - apply andb_true_iff in H. destruct H as [H1 H2].
    apply Z.eqb_eq in H1, H2. split; assumption.
  - destruct H as [H1 H2]. now rewrite H1, H2, !Z.eqb_refl.
Qed.

Lemma audit_log_db (ctx : Ctx) action entity entity_id b a (w : World) :
  db (audit_log ctx action entity entity_id b a w) = db w.
Proof.
  unfold audit_log. destruct (current_user ctx); [|reflexivity].
  destruct (next_commit_frame w) as (Hdb & _).
  destruct (next_commit w) as [[e|] w']; simpl in *; assumption.
Qed.




End GrantCreation.

(** ** C7: the superadmin shortcut *)
Section SuperadminShortcut.
Import App Security Sample.

Lemma superadmin_role_holds_catalog : granted_entire_catalog superadmin_role.
Proof.
  assert (forallb (Role.has_permission superadmin_role) PERMISSIONS_keys = true)
    as Hall by (vm_compute; reflexivity).
  intros c Hc. rewrite forallb_forall in Hall.
  apply Hall. now apply list_elem_of_In.
Qed.

Lemma superadmin_is_allowed (u : Staff.t) (r : Role.t) (permission_code : string) :
  Staff.active u = true ->
  Staff.role u = Some r ->
  Role.name r = "superadmin" ->
  has_permission (Some u) permission_code = true.
Proof.
  intros Hactive Hrole Hname. unfold has_permission, has_role.
  rewrite Hactive, Hrole, Hname. reflexivity.
Qed.

(** C7 as stated fails outside the catalog: ['facility.view'], the code the
    facility views are guarded with, is not a catalog entry; the shortcut
    allows it for the superadmin while the role, which holds exactly the
    catalog, does not contain it. *)
Lemma shortcut_exceeds_general_check : ~ superadmin_shortcut_equivalent.
Proof.
  intros Hspec.
  specialize (Hspec admin superadmin_role "facility.view"
                eq_refl eq_refl eq_refl superadmin_role_holds_catalog).
  vm_compute in Hspec. discriminate Hspec.
Qed.

(** C7, amended.  For an active actor whose role is named [superadmin] and
    holds the entire catalog, and for every permission code of the
    catalog, [has_permission] (which answers through the shortcut) returns
    the same decision as the membership test on the role's permission
    set. *)
Theorem superadmin_shortcut_agrees_on_catalog (u : Staff.t) (r : Role.t)
    (permission_code : string) :
  Staff.active u = true ->
  Staff.role u = Some r ->
  Role.name r = "superadmin" ->
  granted_entire_catalog r ->
  permission_code ∈ PERMISSIONS_keys ->
  has_permission (Some u) permission_code = spec_general_check u permission_code.
Proof.
  intros Hactive Hrole Hname Hall Hcode.
  rewrite (superadmin_is_allowed u r permission_code Hactive Hrole Hname).
  unfold spec_general_check. rewrite Hrole. symmetry. now apply Hall.
Qed.

Lemma superadmin_shortcut_agrees_on_catalog_witness :
  has_permission (Some admin) "invoice_finalize"
  = spec_general_check admin "invoice_finalize".
Proof.
  apply (superadmin_shortcut_agrees_on_catalog admin superadmin_role
           "invoice_finalize" eq_refl eq_refl eq_refl superadmin_role_holds_catalog).
  apply list_elem_of_In. vm_compute. tauto.
Defined.

End SuperadminShortcut.

(** ** C8: granting and revoking permissions of a role *)
Section RoleRegistry.

Lemma has_permission_true_iff (r : Role.t) (c : string) :
  Role.has_permission r c = true <->
  exists q, q ∈ Role.permissions r /\ Permission.code q = c.
Proof.
  unfold Role.has_permission. rewrite existsb_exists. split.
  - intros [q [Hin Hq]]. exists q. split; [now apply list_elem_of_In|].
    now apply String.eqb_eq.
  - intros [q [Hin Hq]]. exists q. split; [now apply list_elem_of_In|].
    now apply String.eqb_eq.
Qed.

Lemma list_remove_subset (p q : Permission.t) (l : list Permission.t) :
  q ∈ Role.list_remove p l -> q ∈ l.
Proof.
  induction l as [|x l IH]; simpl; [auto|].
  destruct (decide (x = p)); intros H.
  - now apply list_elem_of_further.
  - apply elem_of_cons in H. destruct H as [->|H].
    + apply list_elem_of_here.
    + apply list_elem_of_further. auto.
Qed.

Lemma list_remove_absent (p : Permission.t) (l : list Permission.t) :
  NoDup l -> p ∉ Role.list_remove p l.
Proof.
  induction 1 as [|x l Hx Hnd IH]; simpl.
  - apply not_elem_of_nil.
  - destruct (decide (x = p)) as [->|Hne]; [assumption|].
    intros H. apply elem_of_cons in H. destruct H as [H|H]; [congruence|].
    now apply IH.
Qed.

Lemma list_remove_NoDup (p : Permission.t) (l : list Permission.t) :
  NoDup l -> NoDup (Role.list_remove p l).
Proof.
  induction 1 as [|x l Hx Hnd IH]; simpl; [constructor|].
  destruct (decide (x = p)); [assumption|].
  constructor; [|assumption]. intros H. apply Hx. eapply list_remove_subset, H.
Qed.

(** The operations keep the no-duplicates invariant. *)
Lemma no_duplicates_preserved (r : Role.t) (p : Permission.t) :
  Role.no_duplicates r ->
  Role.no_duplicates (Role.add_permission r p) /\
  Role.no_duplicates (Role.remove_permission r p).
Proof.
  unfold Role.no_duplicates, Role.add_permission, Role.remove_permission, Role.py_in.
  intros Hnd. split; case_bool_decide; simpl; try assumption.
  - apply NoDup_app. split; [assumption|]. split.
    + intros x Hx Hx'. apply list_elem_of_singleton in Hx'. now subst.
    + apply NoDup_singleton.
  - now apply list_remove_NoDup.
Qed.

(** C8.  On a role of a store (no permission twice in the role, permission
    codes unique): after [add_permission r p] the role has [p]'s code;
    after [remove_permission r p] it does not; adding twice is the same
    as adding once, and removing twice the same as removing once. *)
Theorem grant_revoke_permission (r : Role.t) (p : Permission.t) :
  Role.no_duplicates r ->
  Role.codes_unique (p :: Role.permissions r) ->
  Role.has_permission (Role.add_permission r p) (Permission.code p) = true /\
  Role.has_permission (Role.remove_permission r p) (Permission.code p) = false /\
  Role.add_permission (Role.add_permission r p) p = Role.add_permission r p /\
  Role.remove_permission (Role.remove_permission r p) p
  = Role.remove_permission r p.
Proof.
  intros Hnd Huniq.
  assert (forall l, (forall q, q ∈ l -> q ∈ Role.permissions r) -> p ∉ l ->
                    Role.has_permission (Role.set_permissions r l)
                                        (Permission.code p) = false) as Hgone.
  { intros l Hsub Hp.
    destruct (Role.has_permission (Role.set_permissions r l) (Permission.code p))
      eqn:E; [|reflexivity].
    apply has_permission_true_iff in E. destruct E as [q [Hq Hcode]].
    simpl in Hq. assert (q = p) as ->.
    { apply Huniq; [apply list_elem_of_further; auto | apply list_elem_of_here
                   | assumption]. }
    contradiction. }
  unfold Role.add_permission, Role.remove_permission, Role.py_in.
  destruct (decide (p ∈ Role.permissions r)) as [Hin|Hout].
  - rewrite (bool_decide_eq_true_2 _ Hin). simpl.
    rewrite (bool_decide_eq_true_2 _ Hin). simpl.
    pose proof (list_remove_absent p _ Hnd) as Habs.
    rewrite (bool_decide_eq_false_2 _ Habs).
    repeat split.
    + apply has_permission_true_iff. eauto.
    + apply Hgone; [intros q; apply list_remove_subset | assumption].
  - rewrite (bool_decide_eq_false_2 _ Hout). simpl.
    rewrite (bool_decide_eq_false_2 _ Hout).
    assert (p ∈ Role.permissions r ++ [p]) as Hnow.
    { apply elem_of_app. right. apply list_elem_of_here. }
    rewrite (bool_decide_eq_true_2 _ Hnow). simpl.
    repeat split.
    + apply has_permission_true_iff. exists p. split; [exact Hnow | reflexivity].
    + replace r with (Role.set_permissions r (Role.permissions r)) at 1
        by (now destruct r).
      apply Hgone; auto.
Qed.

Lemma grant_revoke_permission_witness :
  let p := Permission.mk 19 "invoice_create" "invoice_create" "Create invoices" in
  Role.has_permission (Role.add_permission Sample.cashier_role p) "invoice_create"
  = true /\
  Role.has_permission
    (Role.remove_permission (Role.add_permission Sample.cashier_role p) p)
    "invoice_create" = false.
Proof.
  cbv zeta.
  set (p := Permission.mk 19 "invoice_create" "invoice_create" "Create invoices").
  split.
  - refine (proj1 (grant_revoke_permission Sample.cashier_role p _ _)).
    + unfold Role.no_duplicates. simpl. apply NoDup_singleton.
    + intros a b Ha Hb Hcode. vm_compute in Ha, Hb.
      repeat (apply elem_of_cons in Ha; destruct Ha as [->|Ha]);
        repeat (apply elem_of_cons in Hb; destruct Hb as [->|Hb]);
        first [reflexivity | discriminate Hcode | inversion Ha | inversion Hb].
  - refine (proj1 (proj2 (grant_revoke_permission
                            (Role.add_permission Sample.cashier_role p) p _ _))).
    + unfold Role.no_duplicates. vm_compute.
      apply NoDup_cons. split; [|apply NoDup_singleton].
      intros H. apply list_elem_of_singleton in H. discriminate H.
    + intros a b Ha Hb Hcode. vm_compute in Ha, Hb.
      repeat (apply elem_of_cons in Ha; destruct Ha as [->|Ha]);
        repeat (apply elem_of_cons in Hb; destruct Hb as [->|Hb]);
        first [reflexivity | discriminate Hcode | inversion Ha | inversion Hb].
Defined.

End RoleRegistry.

(** ** C9: listing the accessible facilities *)
Section AccessibleFacilities.
Import App Sample.

Lemma unique_list_spec {A : Type} `{EqDecision A} (l seen : list A) :
  (forall x, x ∈ Py.unique_list seen l <-> x ∈ l /\ x ∉ seen) /\
  NoDup (Py.unique_list seen l).
Proof.
  revert seen. induction l as [|y l IH]; intros seen; simpl.
  - split; [|constructor]. intros x. split.
    + intros H. inversion H.
    + intros [H _]. inversion H.
  - destruct (decide (y ∈ seen)) as [Hy|Hy].
    + destruct (IH seen) as [Hmem Hnd]. split; [|exact Hnd].
      intros x. rewrite Hmem, elem_of_cons. split.
      * intros [H1 H2]. auto.
      * intros [[->|H1] H2]; [contradiction | auto].
    + destruct (IH (y :: seen)) as [Hmem Hnd]. split.
      * intros x. rewrite !elem_of_cons, Hmem, elem_of_cons. split.
        -- intros [->|[H1 H2]]; [auto|]. split; [auto|]. intros H3. apply H2. auto.
        -- intros [[->|H1] H2]; [auto|].
           destruct (decide (x = y)) as [->|Hne]; [auto|].
           right. split; [assumption|]. intros [H3|H3]; contradiction.
      * apply NoDup_cons. split; [|exact Hnd].
        rewrite Hmem. intros [_ H2]. apply H2. apply list_elem_of_here.
Qed.

(** C9 as stated fails on the ordering: the query has no [order_by], so
    the listing is not sorted by the code; with the facility rows yielded
    as "Zeta Health Centre" then "Alpha Clinic" and a grant for each, the
    listing comes back in that order. *)
Lemma accessible_listing_is_not_ordered : ~ accessible_listing_is_ordered.
Proof.
  intros Hspec.
  specialize (Hspec cashier [phc001; phc002] [grant 1 5 1 true; grant 2 5 2 true]).
  unfold sorted_by_name in Hspec. vm_compute in Hspec.
  inversion Hspec as [|a l Hs Hhd]; subst.
  inversion Hhd as [|b l' Hle]; subst. discriminate Hle.
Qed.

(** C9, amended.  [get_accessible_facilities] returns exactly the active
    facilities of the store for which [has_facility_access] holds, each
    of them once; the query applies no ordering by name, and nothing is
    stated of the order of the result.  For an actor without any grant row
    it returns the empty list, and [get_user_facilities] is that listing
    for the authenticated user. *)
Theorem accessible_facilities_exact (u : Staff.t)
    (facilities : list Facility.t) (grants : list StaffFacility.t) :
  (forall f, f ∈ Staff.get_accessible_facilities u facilities grants <->
             f ∈ facilities /\ Facility.is_active f = true /\
             Staff.has_facility_access u grants (Facility.id f) = true) /\
  NoDup (Staff.get_accessible_facilities u facilities grants) /\
  ((forall g, g ∈ grants -> StaffFacility.staff_id g <> Staff.id u) ->
   Staff.get_accessible_facilities u facilities grants = []) /\
  (forall w, db w = mkDb (staff (db w)) facilities grants ->
             Session.get_user_facilities (mkCtx (Some u)) w
             = Staff.get_accessible_facilities u facilities grants).
Proof.
  assert (forall f, f ∈ Staff.get_accessible_facilities u facilities grants <->
             f ∈ facilities /\ Facility.is_active f = true /\
             Staff.has_facility_access u grants (Facility.id f) = true) as Hmem.
  { intros f. unfold Staff.get_accessible_facilities.
    rewrite (proj1 (unique_list_spec _ [])), has_facility_access_iff.
    rewrite list_elem_of_In, in_map_iff. split.
    - intros [[[f' g] [Hf Hin]] _]. simpl in Hf. subst f'.
      apply filter_In in Hin. destruct Hin as [Hin Hcond]. simpl in Hcond.
      apply in_flat_map in Hin. destruct Hin as [f0 [Hf0 Hpair]].
      apply in_map_iff in Hpair. destruct Hpair as [g0 [Heq Hg0]].
      injection Heq as -> ->. apply filter_In in Hg0. destruct Hg0 as [Hg Hfid].
      rewrite !andb_true_iff, !eqb_true_iff_bool, Z.eqb_eq in Hcond.
      apply Z.eqb_eq in Hfid. destruct Hcond as [[[H1 H2] H3] H4].
      split; [now apply list_elem_of_In|]. split; [assumption|].
      exists g. split; [now apply list_elem_of_In|]. repeat split; assumption.
    - intros [Hf [Hact [g [Hg (H1 & H2 & H3 & H4)]]]].
      split; [|apply not_elem_of_nil].
      exists (f, g). split; [reflexivity|].
      apply filter_In. split.
      + apply in_flat_map. exists f. split; [now apply list_elem_of_In|].
        apply in_map_iff. exists g. split; [reflexivity|].
        apply filter_In. split; [now apply list_elem_of_In|].
        now apply Z.eqb_eq.
      + simpl. rewrite H1, H3, H4, Hact, Z.eqb_refl. reflexivity. }
  split; [exact Hmem|]. split; [|split].
  - apply unique_list_spec.
  - intros Hnone.
    destruct (Staff.get_accessible_facilities u facilities grants) as [|f l] eqn:E;
      [reflexivity|].
    destruct (proj1 (Hmem f) (list_elem_of_here _ _)) as (_ & _ & Hacc).
    apply has_facility_access_iff in Hacc. destruct Hacc as [g [Hg [H1 _]]].
    now destruct (Hnone g Hg).
  - intros w Hdb. unfold Session.get_user_facilities. simpl. now rewrite Hdb.
Qed.

Lemma accessible_facilities_exact_witness :
  Staff.get_accessible_facilities cashier [phc001; phc002; closed_site] [] = [] /\
  Session.get_user_facilities (as_user cashier) (empty_world two_sites) = [] /\
  (forall f,
     f ∈ Staff.get_accessible_facilities cashier [phc001; phc002; closed_site]
           [grant 1 5 1 true; grant 2 5 2 true; grant 3 5 3 true]
     <-> f = phc001 \/ f = phc002).
Proof.
  destruct (accessible_facilities_exact cashier [phc001; phc002; closed_site] [])
    as (_ & _ & Hempty & _).
  destruct (accessible_facilities_exact cashier [phc001; phc002] [])
    as (_ & _ & Hempty' & Huser).
  destruct (accessible_facilities_exact cashier [phc001; phc002; closed_site]
              [grant 1 5 1 true; grant 2 5 2 true; grant 3 5 3 true])
    as (Hmem & _).
  split; [|split].
  - apply Hempty. intros g Hg. inversion Hg.
  - unfold as_user. rewrite (Huser (empty_world two_sites) eq_refl).
    apply Hempty'. intros g Hg. inversion Hg.
  - intros f. rewrite Hmem. split.
    + intros (Hin & Hact & _).
      apply elem_of_cons in Hin. destruct Hin as [->|Hin]; [now left|].
      apply elem_of_cons in Hin. destruct Hin as [->|Hin]; [now right|].
      apply list_elem_of_singleton in Hin. subst f. discriminate Hact.
    + intros [->| ->].
      * split; [apply list_elem_of_here | split; reflexivity].
      * split; [|split; reflexivity].
        assert (phc002 ∈ [phc002; closed_site]) as Hin
          by apply list_elem_of_here.
        now apply list_elem_of_further.
Defined.

End AccessibleFacilities.

(** ** C10: the change summary of an update *)
Section ChangeSummary.
Import Sample.


End ChangeSummary.

(* ===================================================================== *)
(** * Further properties of the code *)
(* ===================================================================== *)

(** ** Role registry: what granting and revoking leave alone *)
Section RoleRegistryFrame.

Lemma list_remove_keeps_others (p q : Permission.t) (l : list Permission.t) :
  q <> p -> q ∈ l -> q ∈ Role.list_remove p l.
Proof.
  intros Hne. induction l as [|x l IH]; simpl; [auto|].
  intros H. apply elem_of_cons in H.
  destruct (decide (x = p)) as [->|Hx].
  - destruct H as [->|H]; [contradiction | assumption].
  - destruct H as [->|H]; [apply list_elem_of_here|].
    apply list_elem_of_further. auto.
Qed.

Lemma list_remove_appended (p : Permission.t) (l : list Permission.t) :
  p ∉ l -> Role.list_remove p (l ++ [p]) = l.
Proof.
  induction l as [|x l IH]; simpl; intros Hout.
  - destruct (decide (p = p)); [reflexivity | contradiction].
  - destruct (decide (x = p)) as [->|Hx].
    + exfalso. apply Hout. apply list_elem_of_here.
    + f_equal. apply IH. intros H. apply Hout. now apply list_elem_of_further.
Qed.

Lemma list_remove_permutation (p : Permission.t) (l : list Permission.t) :
  p ∈ l -> Permutation (Role.list_remove p l ++ [p]) l.
Proof.
  induction l as [|x l IH]; simpl; intros Hin.
  - inversion Hin.
  - destruct (decide (x = p)) as [->|Hx].
    + symmetry. apply Permutation_cons_append.
    + simpl. constructor. apply IH.
      apply elem_of_cons in Hin. destruct Hin as [->|Hin]; [contradiction|assumption].
Qed.

(** X1.  Granting a permission changes the answer of [has_permission] for
    that permission's code only: for every code the role has it afterwards
    exactly when it had it before or the code is the granted one; every
    permission the role held is still held. *)
Theorem add_permission_frame (r : Role.t) (p : Permission.t) (c : string) :
  Role.has_permission (Role.add_permission r p) c
  = Role.has_permission r c || String.eqb (Permission.code p) c /\
  forall q, q ∈ Role.permissions r -> q ∈ Role.permissions (Role.add_permission r p).
Proof.
  unfold Role.add_permission, Role.py_in. case_bool_decide as Hin; simpl.
  - split; [|auto].
    destruct (String.eqb_spec (Permission.code p) c) as [Hc|Hc].
    + rewrite orb_true_r. apply has_permission_true_iff. eauto.
    + now rewrite orb_false_r.
  - split.
    + unfold Role.has_permission. simpl. rewrite existsb_app. simpl.
      now rewrite orb_false_r.
    + intros q Hq. apply elem_of_app. now left.
Qed.

(** X2.  Revoking a permission does not touch other codes: for every code
    different from the revoked permission's, [has_permission] answers as
    before, and every other permission object stays in the role. *)
Theorem remove_permission_frame (r : Role.t) (p : Permission.t) (c : string) :
  c <> Permission.code p ->
  Role.has_permission (Role.remove_permission r p) c = Role.has_permission r c /\
  forall q, q <> p -> q ∈ Role.permissions r ->
            q ∈ Role.permissions (Role.remove_permission r p).
Proof.
  intros Hc. unfold Role.remove_permission, Role.py_in.
  case_bool_decide as Hin; simpl; [|auto]. split.
  - apply Bool.eq_iff_eq_true. rewrite !has_permission_true_iff. simpl.
    split; intros [q [Hq Hcode]]; exists q; (split; [|assumption]).
    + eapply list_remove_subset, Hq.
    + apply list_remove_keeps_others; [|assumption]. intros ->. congruence.
  - intros q Hq Hqin. now apply list_remove_keeps_others.
Qed.

Lemma remove_permission_frame_witness :
  let p := Permission.mk 21 "payment_process" "payment_process" "Process payments" in
  let q := Permission.mk 5 "visit_create" "visit_create" "Create new visits" in
  Role.has_permission
    (Role.remove_permission (Role.add_permission Sample.cashier_role q) p)
    "visit_create" = true.
Proof.
  cbv zeta.
  rewrite (proj1 (remove_permission_frame
                    (Role.add_permission Sample.cashier_role
                       (Permission.mk 5 "visit_create" "visit_create"
                          "Create new visits"))
                    (Permission.mk 21 "payment_process" "payment_process"
                       "Process payments")
                    "visit_create" ltac:(discriminate))).
  reflexivity.
Defined.

(** X3.  Grant and revoke undo each other: revoking a permission that was
    just granted to a role not holding it gives the role back unchanged;
    granting again a permission just revoked from a duplicate-free role
    gives the same permission set (the permission moves to the end of the
    list). *)
Theorem grant_revoke_round_trip (r : Role.t) (p : Permission.t) :
  (p ∉ Role.permissions r ->
   Role.remove_permission (Role.add_permission r p) p = r) /\
  (p ∈ Role.permissions r -> Role.no_duplicates r ->
   Permutation
     (Role.permissions (Role.add_permission (Role.remove_permission r p) p))
     (Role.permissions r)).
Proof.
  unfold Role.add_permission, Role.remove_permission, Role.py_in. split.
  - intros Hout. rewrite (bool_decide_eq_false_2 _ Hout). simpl.
    assert (p ∈ Role.permissions r ++ [p]) as Hnow
        by (apply elem_of_app; right; apply list_elem_of_here).
    rewrite (bool_decide_eq_true_2 _ Hnow). unfold Role.set_permissions. simpl.
    rewrite (list_remove_appended p _ Hout). now destruct r.
  - intros Hin Hnd. rewrite (bool_decide_eq_true_2 _ Hin). simpl.
    pose proof (list_remove_absent p _ Hnd) as Habs.
    rewrite (bool_decide_eq_false_2 _ Habs). simpl.
    now apply list_remove_permutation.
Qed.

Lemma grant_revoke_round_trip_witness :
  let p := Permission.mk 19 "invoice_create" "invoice_create" "Create invoices" in
  let paid := Permission.mk 21 "payment_process" "payment_process"
                "Process payments" in
  Role.remove_permission (Role.add_permission Sample.cashier_role p) p
  = Sample.cashier_role /\
  Permutation
    (Role.permissions
       (Role.add_permission (Role.remove_permission Sample.cashier_role paid) paid))
    (Role.permissions Sample.cashier_role).
Proof.
  cbv zeta. split.
  - apply (proj1 (grant_revoke_round_trip Sample.cashier_role _)).
    intros Hin. apply list_elem_of_singleton in Hin. discriminate Hin.
  - apply (proj2 (grant_revoke_round_trip Sample.cashier_role _)).
    + apply list_elem_of_here.
    + apply NoDup_singleton.
Defined.

End RoleRegistryFrame.

Lemma add_permission_frame_witness :
  Role.has_permission
    (Role.add_permission Sample.cashier_role
       (Permission.mk 19 "invoice_create" "invoice_create" "Create invoices"))
    "payment_process" = true /\
  Permission.mk 21 "payment_process" "payment_process" "Process payments"
  ∈ Role.permissions
      (Role.add_permission Sample.cashier_role
         (Permission.mk 19 "invoice_create" "invoice_create" "Create invoices")).
Proof.
  destruct (add_permission_frame Sample.cashier_role
              (Permission.mk 19 "invoice_create" "invoice_create" "Create invoices")
              "payment_process") as [Hcode Hkept].
  split; [rewrite Hcode; reflexivity|].
  apply Hkept. apply list_elem_of_here.
Defined.

(** ** The guard: decision paths *)
Section GuardPaths.
Import App Security SecurityChecks Sample.

Lemma has_role_active (u : Staff.t) (r : Role.t) (role_name : string) :
  Staff.active u = true -> Staff.role u = Some r ->
  has_role (Some u) role_name = String.eqb (Role.name r) role_name.
Proof. intros Ha Hr. unfold has_role. now rewrite Ha, Hr. Qed.

Lemma has_role_true (user : option Staff.t) (role_name : string) :
  has_role user role_name = true <->
  exists u r, user = Some u /\ Staff.active u = true /\
              Staff.role u = Some r /\ Role.name r = role_name.
Proof.
  unfold has_role. split.
  - destruct user as [u|]; [|discriminate].
    destruct (Staff.active u) eqn:Ha; [|discriminate]. simpl.
    destruct (Staff.role u) as [r|] eqn:Hr; [|discriminate].
    intros H. apply String.eqb_eq in H. exists u, r. auto.
  - intros [u [r (-> & Ha & Hr & Hn)]]. rewrite Ha, Hr. simpl.
    now apply String.eqb_eq.
Qed.

Lemma existsb_code_eq (r : Role.t) (c : string) :
  match Role.permissions r with
  | [] => false
  | _ :: _ =>
      existsb (fun p => String.eqb (Permission.code p) c) (Role.permissions r)
  end = Role.has_permission r c.
Proof. unfold Role.has_permission. now destruct (Role.permissions r). Qed.

Lemma substring_whole (s : string) : substring 0 (String.length s) s = s.
Proof. induction s as [|c s IH]; simpl; [reflexivity | now rewrite IH]. Qed.

Lemma substring_skip (pre suf : string) :
  substring (String.length pre) (String.length suf) (pre ++ suf)%string = suf.
Proof.
  induction pre as [|c pre IH]; simpl; [apply substring_whole | exact IH].
Qed.

Lemma endswith_append (pre suf : string) :
  Py.endswith (pre ++ suf)%string suf = true.
Proof.
  unfold Py.endswith.
  assert (String.length (pre ++ suf)%string
          = (String.length pre + String.length suf)%nat) as Hlen.
  { induction pre as [|c pre IH]; simpl; [reflexivity | now rewrite IH]. }
  rewrite Hlen. apply andb_true_iff. split.
  - apply Nat.leb_le. apply Nat.le_add_l.
  - replace (String.length pre + String.length suf - String.length suf)%nat
      with (String.length pre) by (symmetry; apply Nat.add_sub).
    rewrite substring_skip. apply String.eqb_refl.
Qed.

(** X4.  The role-name gate is passed through one name only: [has_role]
    answers [True] exactly for an active actor whose role carries that
    name, so an actor never passes the gates of two different names. *)
Theorem has_role_single_name (user : option Staff.t) (a b : string) :
  (has_role user a = true <->
   exists u r, user = Some u /\ Staff.active u = true /\
               Staff.role u = Some r /\ Role.name r = a) /\
  (has_role user a = true -> has_role user b = true -> a = b).
Proof.
  split; [apply has_role_true|].
  intros Ha Hb. apply has_role_true in Ha, Hb.
  destruct Ha as [u [r (Hu & _ & Hr & Hn)]].
  destruct Hb as [u' [r' (Hu' & _ & Hr' & Hn')]]. congruence.
Qed.

Lemma has_role_single_name_witness :
  has_role (Some cashier) "cashier" = true /\
  has_role (Some cashier) "finance" = false.
Proof.
  destruct (has_role_single_name (Some cashier) "cashier" "finance") as [Hiff Huniq].
  assert (has_role (Some cashier) "cashier" = true) as Hc.
  { apply Hiff. exists cashier, cashier_role. repeat split; reflexivity. }
  split; [exact Hc|].
  destruct (has_role (Some cashier) "finance") eqn:Hf; [|reflexivity].
  discriminate (Huniq Hc eq_refl).
Defined.

Lemma ordinary_guard_eq (u : Staff.t) (r : Role.t) (c : string) :
  Staff.active u = true -> Staff.role u = Some r ->
  Role.name r <> "superadmin" -> Role.name r <> "facility_head" ->
  has_permission (Some u) c = Role.has_permission r c.
Proof.
  intros Ha Hr Hs Hf. unfold has_permission.
  rewrite !(has_role_active u r _ Ha Hr), Ha, Hr. simpl.
  apply String.eqb_neq in Hs, Hf. rewrite Hs, Hf. simpl.
  apply existsb_code_eq.
Qed.

(** X5.  For an active actor whose role is neither [superadmin] nor
    [facility_head], the guard decides exactly as the role registry does:
    [has_permission(user, code)] equals [role.has_permission(code)] (an
    empty permission list denies).  An actor without a role is denied
    everything. *)
Theorem ordinary_role_guard_is_registry (u : Staff.t) (c : string) :
  (forall r, Staff.active u = true -> Staff.role u = Some r ->
             Role.name r <> "superadmin" -> Role.name r <> "facility_head" ->
             has_permission (Some u) c = Role.has_permission r c) /\
  (Staff.role u = None -> has_permission (Some u) c = false).
Proof.
  split.
  - intros r. apply ordinary_guard_eq.
  - intros Hr. unfold has_permission, has_role. rewrite Hr.
    destruct (Staff.active u); reflexivity.
Qed.

Lemma ordinary_role_guard_is_registry_witness :
  has_permission (Some cashier) "invoice_create" = false /\
  has_permission (Some cashier) "payment_process" = true /\
  has_permission (Some (Staff.mk 8 "nobody@healthcare.com" true None))
                 "patient_read" = false.
Proof.
  destruct (ordinary_role_guard_is_registry cashier "invoice_create") as [H1 _].
  destruct (ordinary_role_guard_is_registry cashier "payment_process") as [H2 _].
  destruct (ordinary_role_guard_is_registry
              (Staff.mk 8 "nobody@healthcare.com" true None) "patient_read")
    as [_ H3].
  rewrite (H1 cashier_role eq_refl eq_refl ltac:(discriminate) ltac:(discriminate)).
  rewrite (H2 cashier_role eq_refl eq_refl ltac:(discriminate) ltac:(discriminate)).
  rewrite (H3 eq_refl). repeat split; reflexivity.
Defined.

(** X6.  The facility-head exemption: an active actor whose role is named
    [facility_head] is allowed every code that ends in [_read], whatever
    precedes the suffix and whether or not the catalog or the role knows
    the code; for every other code the decision is the role's own
    permission set. *)
Theorem facility_head_blanket_read (u : Staff.t) (r : Role.t) :
  Staff.active u = true -> Staff.role u = Some r ->
  Role.name r = "facility_head" ->
  (forall stem, has_permission (Some u) (stem ++ "_read")%string = true) /\
  (forall c, has_permission (Some u) c
             = Py.endswith c "_read" || Role.has_permission r c).
Proof.
  intros Ha Hr Hn.
  assert (forall c, has_permission (Some u) c
                    = Py.endswith c "_read" || Role.has_permission r c) as Hform.
  { intros c. unfold has_permission.
    rewrite !(has_role_active u r _ Ha Hr), Ha, Hr, Hn. simpl.
    destruct (Py.endswith c "_read"); simpl; [reflexivity|].
    apply existsb_code_eq. }
  split; [|exact Hform].
  intros stem. rewrite Hform, endswith_append. reflexivity.
Qed.

Lemma facility_head_blanket_read_witness :
  let head := Staff.mk 3 "head@healthcare.com" true
                (Some (Role.mk 16 "facility_head" "Facility_Head role" [])) in
  has_permission (Some head) "payroll_read" = true /\
  has_permission (Some head) "reports_view" = false.
Proof.
  cbv zeta.
  destruct (facility_head_blanket_read
              (Staff.mk 3 "head@healthcare.com" true
                 (Some (Role.mk 16 "facility_head" "Facility_Head role" [])))
              (Role.mk 16 "facility_head" "Facility_Head role" [])
              eq_refl eq_refl eq_refl) as [Hread Hother].
  split; [apply (Hread "payroll") | rewrite Hother; reflexivity].
Defined.

(** X7.  [get_user_permissions] is sound for the guard: every code it
    lists is allowed by [has_permission]; for an active actor whose role is
    neither [superadmin] nor [facility_head] it is also complete, the guard
    allows exactly the listed codes.  An inactive actor gets the empty
    list. *)
Theorem get_user_permissions_sound (user : option Staff.t) (c : string) :
  (c ∈ get_user_permissions user -> has_permission user c = true) /\
  (forall u r, user = Some u -> Staff.active u = true -> Staff.role u = Some r ->
               Role.name r <> "superadmin" -> Role.name r <> "facility_head" ->
               has_permission user c = true -> c ∈ get_user_permissions user) /\
  (forall u, user = Some u -> Staff.active u = false ->
             get_user_permissions user = []).
Proof.
  assert (forall r, c ∈ map Permission.code (Role.permissions r) <->
                    Role.has_permission r c = true) as Hmap.
  { intros r. rewrite has_permission_true_iff, list_elem_of_In, in_map_iff.
    split; intros [q [H1 H2]]; exists q.
    - split; [now apply list_elem_of_In | assumption].
    - split; [assumption | now apply list_elem_of_In]. }
  split; [|split].
  - unfold get_user_permissions.
    destruct user as [u|]; [|intros H; inversion H].
    destruct (Staff.active u) eqn:Ha; cbn [negb]; [|intros H; inversion H].
    destruct (Staff.role u) as [r|] eqn:Hr; [|intros H; inversion H].
    intros Hin. apply Hmap in Hin.
    unfold has_permission. rewrite !(has_role_active u r _ Ha Hr), Ha, Hr. simpl.
    destruct (String.eqb (Role.name r) "superadmin"); [reflexivity|].
    destruct (String.eqb (Role.name r) "facility_head" && Py.endswith c "_read");
      [reflexivity|].
    now rewrite existsb_code_eq.
  - intros u r -> Ha Hr Hs Hf Hp.
    rewrite (ordinary_guard_eq u r c Ha Hr Hs Hf) in Hp.
    unfold get_user_permissions. rewrite Ha, Hr. simpl. now apply Hmap.
  - intros u -> Ha. unfold get_user_permissions. now rewrite Ha.
Qed.

End GuardPaths.

Section GuardPathsMore.
Import App Security SecurityChecks Sample.

Lemma get_user_permissions_sound_witness :
  get_user_permissions (Some cashier) = ["payment_process"] /\
  has_permission (Some cashier) "payment_process" = true /\
  get_user_permissions (Some suspended_admin) = [].
Proof.
  destruct (get_user_permissions_sound (Some cashier) "payment_process")
    as (Hsound & _ & _).
  destruct (get_user_permissions_sound (Some suspended_admin) "payment_process")
    as (_ & _ & Hinactive).
  split; [reflexivity|]. split.
  - apply Hsound. apply list_elem_of_here.
  - apply (Hinactive suspended_admin eq_refl eq_refl).
Defined.

(** X8.  [require_any_role]: an anonymous request is answered 401 and an
    authenticated one whose actor passes none of the listed role gates 403,
    in both cases without running the view or touching the world; the view
    runs when the actor is active and the role's name is in the list.  With
    a single name the decorator is [require_role]. *)
Theorem require_any_role_decision (role_names : list string) (f : Handler)
    (ctx : Ctx) (w : World) :
  (current_user ctx = None ->
   require_any_role role_names f ctx w = (Abort 401, w)) /\
  (forall u, current_user ctx = Some u ->
             (forall role, role ∈ role_names -> has_role (Some u) role = false) ->
             require_any_role role_names f ctx w = (Abort 403, w)) /\
  (forall u r, current_user ctx = Some u -> Staff.active u = true ->
               Staff.role u = Some r -> Role.name r ∈ role_names ->
               require_any_role role_names f ctx w = run ctx f w) /\
  (forall role, require_any_role [role] f ctx w = require_role role f ctx w).
Proof.
  unfold require_any_role, require_role, is_authenticated.
  split; [|split; [|split]].
  - intros ->. reflexivity.
  - intros u -> Hnone. cbn [negb].
    assert (existsb (fun role => has_role (Some u) role) role_names = false) as ->;
      [|reflexivity].
    apply not_true_is_false. intros H. apply existsb_exists in H.
    destruct H as [role [Hin Hrole]]. apply list_elem_of_In in Hin.
    rewrite (Hnone role Hin) in Hrole. discriminate.
  - intros u r -> Ha Hr Hin. cbn [negb].
    assert (existsb (fun role => has_role (Some u) role) role_names = true) as ->;
      [|reflexivity].
    apply existsb_exists. exists (Role.name r). split; [now apply list_elem_of_In|].
    rewrite (has_role_active u r _ Ha Hr). apply String.eqb_refl.
  - intros role. simpl. now rewrite orb_false_r.
Qed.

Lemma require_any_role_decision_witness :
  require_any_role ["finance"; "cashier"] recorded_update (as_user cashier)
    (empty_world two_sites)
  = run (as_user cashier) recorded_update (empty_world two_sites) /\
  require_any_role ["physician"; "dentist"] recorded_update (as_user cashier)
    (empty_world two_sites) = (Abort 403, empty_world two_sites) /\
  require_any_role ["cashier"] recorded_update (mkCtx None) (empty_world two_sites)
  = (Abort 401, empty_world two_sites).
Proof.
  destruct (require_any_role_decision ["finance"; "cashier"] recorded_update
              (as_user cashier) (empty_world two_sites)) as (_ & _ & Hrun & _).
  destruct (require_any_role_decision ["physician"; "dentist"] recorded_update
              (as_user cashier) (empty_world two_sites)) as (_ & Hdeny & _).
  destruct (require_any_role_decision ["cashier"] recorded_update
              (mkCtx None) (empty_world two_sites)) as (Hanon & _).
  split; [|split].
  - apply (Hrun cashier cashier_role eq_refl eq_refl eq_refl).
    apply list_elem_of_further, list_elem_of_here.
  - apply (Hdeny cashier eq_refl). intros role Hin.
    apply elem_of_cons in Hin. destruct Hin as [->|Hin]; [reflexivity|].
    apply list_elem_of_singleton in Hin. subst role. reflexivity.
  - apply Hanon. reflexivity.
Defined.

(** X9.  The API check and the view decorator decide alike:
    [check_api_permission] returns [None] exactly when the user is
    authenticated and [has_permission] holds, which is when
    [require_permission] runs the view; otherwise it reports the status
    (401 or 403) with which [require_permission] aborts. *)
Theorem check_api_permission_agrees (permission_code : string) (f : Handler)
    (ctx : Ctx) (w : World) :
  (check_api_permission permission_code ctx = None <->
   is_authenticated ctx = true /\
   has_permission (current_user ctx) permission_code = true) /\
  (check_api_permission permission_code ctx = None ->
   require_permission permission_code f ctx w = run ctx f w) /\
  (forall message status,
     check_api_permission permission_code ctx = Some (message, status) ->
     require_permission permission_code f ctx w = (Abort status, w) /\
     (status = 401 /\ message = "Authentication required" \/
      status = 403 /\ message = "Insufficient permissions")).
Proof.
  unfold check_api_permission, require_permission.
  destruct (is_authenticated ctx); cbn [negb];
    [destruct (has_permission (current_user ctx) permission_code); cbn [negb]|].
  - split; [tauto|]. split; [reflexivity | discriminate].
  - split; [split; [discriminate | intros [_ H]; discriminate]|].
    split; [discriminate|]. intros m s H. injection H as <- <-. auto.
  - split; [split; [discriminate | intros [H _]; discriminate]|].
    split; [discriminate|]. intros m s H. injection H as <- <-. auto.
Qed.

Lemma check_api_permission_agrees_witness :
  check_api_permission "payment_process" (as_user cashier) = None /\
  require_permission "invoice_read" recorded_update (as_user cashier)
    (empty_world two_sites) = (Abort 403, empty_world two_sites).
Proof.
  destruct (check_api_permission_agrees "payment_process" recorded_update
              (as_user cashier) (empty_world two_sites)) as ([_ Hnone] & _ & _).
  destruct (check_api_permission_agrees "invoice_read" recorded_update
              (as_user cashier) (empty_world two_sites)) as (_ & _ & Hsome).
  split.
  - apply Hnone. split; reflexivity.
  - apply (Hsome "Insufficient permissions" 403 eq_refl).
Defined.

(** X10.  Access to a visit: a missing or inactive user is refused;
    [superadmin], [facility_head] and [registration] are admitted to every
    visit; a [physician] or [dentist] is admitted exactly to the visits for
    which a clinical note of theirs exists; every other role is refused
    whatever notes exist. *)
Theorem can_access_visit_decision (user : option Staff.t) (visit : Z)
    (clinical_notes : list ClinicalNote) :
  ((forall u, user = Some u -> Staff.active u = false) ->
   can_access_visit user visit clinical_notes = false) /\
  (forall u r, user = Some u -> Staff.active u = true -> Staff.role u = Some r ->
     (Role.name r ∈ ["superadmin"; "facility_head"; "registration"] ->
      can_access_visit user visit clinical_notes = true) /\
     (Role.name r ∈ ["physician"; "dentist"] ->
      (can_access_visit user visit clinical_notes = true <->
       exists note, note ∈ clinical_notes /\
                    provider_id note = Staff.id u /\ visit_id note = visit)) /\
     (Role.name r ∉ ["superadmin"; "facility_head"; "registration";
                     "physician"; "dentist"] ->
      can_access_visit user visit clinical_notes = false)).
Proof.
  split.
  - intros Hinactive.
    assert (forall role, has_role user role = false) as Hnone.
    { intros role. unfold has_role. destruct user as [u|]; [|reflexivity].
      now rewrite (Hinactive u eq_refl). }
    unfold can_access_visit. now rewrite !Hnone.
  - intros u r -> Ha Hr. unfold can_access_visit.
    rewrite !(has_role_active u r _ Ha Hr). split; [|split].
    + intros Hin. repeat (apply elem_of_cons in Hin; destruct Hin as [->|Hin]);
        try reflexivity. inversion Hin.
    + intros Hin.
      assert (match StaffFacility.first
                      (List.filter (fun n => Z.eqb (provider_id n) (Staff.id u) &&
                                             Z.eqb (visit_id n) visit)
                                   clinical_notes) with
              | Some _ => true
              | None => false
              end = true <->
              exists note, note ∈ clinical_notes /\
                           provider_id note = Staff.id u /\ visit_id note = visit)
        as Hnotes.
      { split.
        - intros H.
          destruct (StaffFacility.first _) as [n|] eqn:E; [|discriminate].
          destruct (proj1 (first_filter_some
                             (fun n => Z.eqb (provider_id n) (Staff.id u) &&
                                       Z.eqb (visit_id n) visit) clinical_notes))
            as [x [Hx HP]]; [eauto|].
          exists x. split; [exact Hx|].
          apply andb_true_iff in HP. now rewrite !Z.eqb_eq in HP.
        - intros [note [Hn [Hp Hv]]].
          destruct (proj2 (first_filter_some
                             (fun n => Z.eqb (provider_id n) (Staff.id u) &&
                                       Z.eqb (visit_id n) visit) clinical_notes))
            as [x Hx].
          + exists note. split; [exact Hn|]. now rewrite Hp, Hv, !Z.eqb_refl.
          + now rewrite Hx. }
      repeat (apply elem_of_cons in Hin; destruct Hin as [->|Hin]);
        try exact Hnotes. inversion Hin.
    + intros Hout.
      assert (forall n, n ∈ ["superadmin"; "facility_head"; "registration";
                             "physician"; "dentist"] ->
                        String.eqb (Role.name r) n = false) as Hne.
      { intros n Hn. apply String.eqb_neq. intros Heq. apply Hout. now rewrite Heq. }
      rewrite !Hne; [reflexivity | ..];
        repeat first [apply list_elem_of_here | apply list_elem_of_further].
Qed.

Lemma can_access_visit_decision_witness :
  let physician := Staff.mk 12 "dr@healthcare.com" true
                     (Some (Role.mk 2 "physician" "Physician role" [])) in
  let notes := [mkClinicalNote 1 40 12; mkClinicalNote 2 41 13] in
  can_access_visit (Some physician) 40 notes = true /\
  can_access_visit (Some cashier) 40 notes = false /\
  can_access_visit (Some suspended_admin) 40 notes = false.
Proof.
  cbv zeta.
  set (physician := Staff.mk 12 "dr@healthcare.com" true
                      (Some (Role.mk 2 "physician" "Physician role" []))).
  set (notes := [mkClinicalNote 1 40 12; mkClinicalNote 2 41 13]).
  destruct (can_access_visit_decision (Some physician) 40 notes) as [_ Hphys].
  destruct (can_access_visit_decision (Some cashier) 40 notes) as [_ Hcash].
  destruct (can_access_visit_decision (Some suspended_admin) 40 notes)
    as [Hinactive _].
  split; [|split].
  - destruct (Hphys physician _ eq_refl eq_refl eq_refl) as (_ & Hclin & _).
    apply Hclin; [apply list_elem_of_here|].
    exists (mkClinicalNote 1 40 12). split; [apply list_elem_of_here|].
    split; reflexivity.
  - destruct (Hcash cashier _ eq_refl eq_refl eq_refl) as (_ & _ & Hother).
    apply Hother. intros Hin.
    repeat (apply elem_of_cons in Hin; destruct Hin as [Hin|Hin];
            [discriminate Hin|]).
    inversion Hin.
  - apply Hinactive. intros u Hu. injection Hu as <-. reflexivity.
Defined.

End GuardPathsMore.

(** ** The audit recorder *)
Section AuditRecorder.
Import App Security Invariants Sample.

(** X11.  A successful [audit_log] call of an authenticated request adds
    exactly one entry, built from the arguments and the actor's id, at the
    end of the trail; it uses up one commit and changes nothing else.  For
    an anonymous request the call does nothing at all, not even a commit. *)
Theorem audit_log_records_one_entry (ctx : Ctx) (action : string)
    (entity entity_id : Py.scalar) (before_data after_data : option Py.dict)
    (w : World) :
  (forall u, current_user ctx = Some u -> fst (next_commit w) = None ->
     let w' := audit_log ctx action entity entity_id before_data after_data w in
     audit_logs w'
     = audit_logs w ++ [AuditLog.mk (Some (Staff.id u)) action entity entity_id
                          before_data after_data None None None None] /\
     db w' = db w /\ session w' = session w /\ flashes w' = flashes w /\
     logger w' = logger w /\ commit_outcomes w' = tail (commit_outcomes w)) /\
  (current_user ctx = None ->
   audit_log ctx action entity entity_id before_data after_data w = w).
Proof.
  unfold audit_log. split.
  - intros u -> Hok. unfold next_commit in *.
    destruct (commit_outcomes w) as [|o rest] eqn:Ho; simpl in *.
    + rewrite Ho. repeat split; reflexivity.
    + subst o. simpl. repeat split; reflexivity.
  - intros ->. reflexivity.
Qed.

Lemma audit_log_records_one_entry_witness :
  audit_logs (audit_log (as_user cashier) "payment_process" (Py.SStr "Payment")
                (Py.SInt 12) None None (empty_world two_sites))
  = [AuditLog.mk (Some 5) "payment_process" (Py.SStr "Payment") (Py.SInt 12)
       None None None None None None] /\
  audit_log (mkCtx None) "payment_process" (Py.SStr "Payment") (Py.SInt 12)
    None None (empty_world two_sites) = empty_world two_sites.
Proof.
  destruct (audit_log_records_one_entry (as_user cashier) "payment_process"
              (Py.SStr "Payment") (Py.SInt 12) None None (empty_world two_sites))
    as [Hok _].
  destruct (audit_log_records_one_entry (mkCtx None) "payment_process"
              (Py.SStr "Payment") (Py.SInt 12) None None (empty_world two_sites))
    as [_ Hanon].
  split.
  - destruct (Hok cashier eq_refl eq_refl) as [Hlogs _]. exact Hlogs.
  - apply Hanon. reflexivity.
Defined.

Lemma audit_log_appends_bare (ctx : Ctx) action entity entity_id b a (w : World) :
  exists created,
    audit_logs (audit_log ctx action entity entity_id b a w)
    = audit_logs w ++ created /\
    Forall no_request_metadata created /\ (length created <= 1)%nat.
Proof.
  unfold audit_log. destruct (current_user ctx) as [u|].
  - destruct (next_commit_frame w) as (_ & Hlogs & _).
    destruct (next_commit w) as [[e|] w']; simpl in *.
    + exists []. rewrite app_nil_r. repeat split; [assumption | constructor | auto].
    + eexists [_]. rewrite Hlogs. split; [reflexivity|]. split; [|auto].
      constructor; [|constructor]. repeat split; reflexivity.
  - exists []. rewrite app_nil_r. repeat split; [constructor | auto].
Qed.

(** X12.  Whatever a view does, the entries it adds to the audit trail
    carry no request metadata: [ip_address], [user_agent], [session_id]
    and [notes] are always empty, because [audit_log] never sets them. *)
Theorem audit_entries_have_no_request_metadata (ctx : Ctx) (h : Handler)
    (w : World) :
  exists created,
    audit_logs (snd (run ctx h w)) = audit_logs w ++ created /\
    Forall no_request_metadata created.
Proof.
  revert w.
  induction h as [r | A q k IH | change k IHk on_error IHe
                 | action entity entity_id b a k IH | message category k IH];
    intros w; simpl.
  - exists []. rewrite app_nil_r. split; [reflexivity | constructor].
  - apply IH.
  - destruct (next_commit_frame w) as (_ & Hlogs & _).
    destruct (next_commit w) as [[e|] w']; simpl in *.
    + destruct (IHe e w') as [c [Hc Hf]]. exists c. now rewrite Hc, Hlogs.
    + destruct (IHk (set_db (change (db w')) w')) as [c [Hc Hf]].
      exists c. rewrite Hc. simpl. now rewrite Hlogs.
  - destruct (audit_log_appends_bare ctx action entity entity_id b a w)
      as [c1 [H1 [F1 _]]].
    destruct (IH (audit_log ctx action entity entity_id b a w)) as [c2 [H2 F2]].
    exists (c1 ++ c2). rewrite H2, H1, <- app_assoc. split; [reflexivity|].
    apply Forall_app. split; assumption.
  - destruct (IH (flash message category w)) as [c [Hc Hf]].
    exists c. now rewrite Hc.
Qed.

End AuditRecorder.

(** ** Facility and staff queries *)
Section FacilityQueriesFacts.
Import App FacilityQueries Invariants Props Sample.

Lemma first_filter_elem {A : Type} (P : A -> bool) (l : list A) (x : A) :
  StaffFacility.first (List.filter P l) = Some x -> x ∈ l /\ P x = true.
Proof.
  unfold StaffFacility.first. intros H.
  assert (In x (List.filter P l)) as Hin.
  { destruct (List.filter P l); simpl in H; [discriminate|].
    injection H as ->. now left. }
  apply filter_In in Hin. destruct Hin as [Hin HP].
  split; [now apply list_elem_of_In | exact HP].
Qed.

Lemma first_filter_none {A : Type} (P : A -> bool) (l : list A) :
  StaffFacility.first (List.filter P l) = None <->
  forall x, x ∈ l -> P x = false.
Proof.
  split.
  - intros Hnone x Hx. destruct (P x) eqn:E; [|reflexivity].
    destruct (proj2 (first_filter_some P l)) as [y Hy]; [eauto|]. congruence.
  - intros Hall. destruct (StaffFacility.first (List.filter P l)) as [x|] eqn:E;
      [|reflexivity].
    apply first_filter_elem in E. destruct E as [Hx HP].
    rewrite (Hall x Hx) in HP. discriminate.
Qed.

(** The first match of a filter is the first element of the list that
    satisfies the test. *)
Lemma first_filter_unique {A : Type} (P : A -> bool) (l : list A) (x : A) :
  x ∈ l -> P x = true -> (forall y, y ∈ l -> P y = true -> y = x) ->
  StaffFacility.first (List.filter P l) = Some x.
Proof.
  intros Hx HP Huniq.
  destruct (StaffFacility.first (List.filter P l)) as [y|] eqn:E.
  - apply first_filter_elem in E. destruct E as [Hy HPy].
    now rewrite (Huniq y Hy HPy).
  - rewrite first_filter_none in E. rewrite (E x Hx) in HP. discriminate.
Qed.

(** X13.  [Facility.get_by_code] never returns a deactivated facility: a
    result is an active row of the table with the requested code; the
    answer is [None] exactly when no active row has the code; and with
    unique codes an active facility is found by its own code. *)
Theorem get_by_code_active_only (rows : list Facility.t) (code : string) :
  (forall f, get_by_code rows code = Some f ->
             f ∈ rows /\ Facility.facility_code f = code /\
             Facility.is_active f = true) /\
  (get_by_code rows code = None <->
   forall f, f ∈ rows -> Facility.facility_code f = code ->
             Facility.is_active f = false) /\
  (forall f, facility_codes_unique rows -> f ∈ rows ->
             Facility.is_active f = true -> Facility.facility_code f = code ->
             get_by_code rows code = Some f).
Proof.
  unfold get_by_code. split; [|split].
  - intros f H. apply first_filter_elem in H. destruct H as [Hin HP].
    apply andb_true_iff in HP. destruct HP as [Hc Ha].
    apply String.eqb_eq in Hc. rewrite eqb_true_iff_bool in Ha.
    repeat split; assumption.
  - rewrite first_filter_none. split.
    + intros H f Hf Hc. specialize (H f Hf). simpl in H.
      rewrite Hc, String.eqb_refl in H. simpl in H.
      destruct (Facility.is_active f); [discriminate | reflexivity].
    + intros H f Hf. simpl.
      destruct (String.eqb_spec (Facility.facility_code f) code) as [Hc|Hc];
        [|reflexivity].
      now rewrite (H f Hf Hc).
  - intros f Huniq Hf Ha Hc. apply first_filter_unique; [assumption | |].
    + simpl. now rewrite Hc, Ha, String.eqb_refl.
    + intros g Hg HP. apply andb_true_iff in HP. destruct HP as [Hgc _].
      apply String.eqb_eq in Hgc. apply Huniq; [assumption..|congruence].
Qed.

Lemma get_by_code_active_only_witness :
  get_by_code [phc001; closed_site] "PHC003" = None /\
  get_by_code [phc001; closed_site] "PHC001" = Some phc001.
Proof.
  destruct (get_by_code_active_only [phc001; closed_site] "PHC003")
    as (_ & [_ Hnone] & _).
  destruct (get_by_code_active_only [phc001; closed_site] "PHC001")
    as (_ & _ & Hfound).
  split.
  - apply Hnone. intros f Hf Hc.
    apply elem_of_cons in Hf. destruct Hf as [->|Hf]; [discriminate Hc|].
    apply list_elem_of_singleton in Hf. subst f. reflexivity.
  - apply Hfound; [| apply list_elem_of_here | reflexivity | reflexivity].
    intros f g Hf Hg Hc.
    apply elem_of_cons in Hf. rewrite list_elem_of_singleton in Hf.
    apply elem_of_cons in Hg. rewrite list_elem_of_singleton in Hg.
    destruct Hf as [->| ->], Hg as [->| ->];
      first [reflexivity | discriminate Hc].
Defined.

Lemma insert_by_name_permutation (f : Facility.t) (l : list Facility.t) :
  Permutation (insert_by_name f l) (f :: l).
Proof.
  induction l as [|g l IH]; simpl; [reflexivity|].
  destruct (String.leb (Facility.name f) (Facility.name g)); [reflexivity|].
  rewrite IH. apply perm_swap.
Qed.

Lemma insert_by_name_sorted (f : Facility.t) (l : list Facility.t) :
  sorted_by_name l -> sorted_by_name (insert_by_name f l).
Proof.
  unfold sorted_by_name. induction 1 as [|g l Hs IH Hhd]; simpl.
  - repeat constructor.
  - destruct (String.leb (Facility.name f) (Facility.name g)) eqn:E.
    + constructor; [constructor; assumption | constructor; exact E].
    + constructor; [exact IH|].
      assert (String.leb (Facility.name g) (Facility.name f) = true) as Hgf.
      { destruct (String.leb_total (Facility.name f) (Facility.name g)); congruence. }
      destruct l as [|g' l]; simpl; [constructor; exact Hgf|].
      destruct (String.leb (Facility.name f) (Facility.name g'));
        constructor; [exact Hgf|]. now inversion Hhd.
Qed.

(** X14.  [Facility.get_active_facilities] returns the active facilities
    of the table, all of them and nothing else (a permutation of the
    active rows), in non-decreasing order of name. *)
Theorem get_active_facilities_sorted (rows : list Facility.t) :
  sorted_by_name (get_active_facilities rows) /\
  Permutation (get_active_facilities rows)
              (List.filter (fun f => Facility.is_active f) rows) /\
  forall f, f ∈ get_active_facilities rows <->
            f ∈ rows /\ Facility.is_active f = true.
Proof.
  unfold get_active_facilities.
  assert (List.filter (fun f => Bool.eqb (Facility.is_active f) true) rows
          = List.filter (fun f => Facility.is_active f) rows) as ->.
  { apply List.filter_ext. intros f. now destruct (Facility.is_active f). }
  assert (forall l, sorted_by_name (order_by_name l) /\
                    Permutation (order_by_name l) l) as Hsort.
  { induction l as [|f l [IHs IHp]]; simpl.
    - split; [constructor | reflexivity].
    - split; [now apply insert_by_name_sorted|].
      rewrite insert_by_name_permutation. now constructor. }
  destruct (Hsort (List.filter (fun f => Facility.is_active f) rows)) as [Hs Hp].
  split; [exact Hs|]. split; [exact Hp|].
  intros f. rewrite Hp, list_elem_of_In, filter_In, <- list_elem_of_In. tauto.
Qed.

End FacilityQueriesFacts.

(** ** The two listings of a staff member's facilities *)
Section StaffFacilityListings.
Import App Invariants Props Sample.

Lemma accessible_facility_iff (u : Staff.t) (facilities : list Facility.t)
    (grants : list StaffFacility.t) (f : Facility.t) :
  f ∈ Staff.get_accessible_facilities u facilities grants <->
  f ∈ facilities /\ Facility.is_active f = true /\
  Staff.has_facility_access u grants (Facility.id f) = true.
Proof.
  unfold Staff.get_accessible_facilities.
  rewrite (proj1 (unique_list_spec _ [])), has_facility_access_iff.
  rewrite list_elem_of_In, in_map_iff. split.
  - intros [[[f' g] [Hf Hin]] _]. simpl in Hf. subst f'.
    apply filter_In in Hin. destruct Hin as [Hin Hcond]. simpl in Hcond.
    apply in_flat_map in Hin. destruct Hin as [f0 [Hf0 Hpair]].
    apply in_map_iff in Hpair. destruct Hpair as [g0 [Heq Hg0]].
    injection Heq as -> ->. apply filter_In in Hg0. destruct Hg0 as [Hg Hfid].
    rewrite !andb_true_iff, !eqb_true_iff_bool, Z.eqb_eq in Hcond.
    apply Z.eqb_eq in Hfid. destruct Hcond as [[[H1 H2] H3] H4].
    split; [now apply list_elem_of_In|]. split; [assumption|].
    exists g. split; [now apply list_elem_of_In|]. repeat split; assumption.
  - intros [Hf [Hact [g [Hg (H1 & H2 & H3 & H4)]]]].
    split; [|apply not_elem_of_nil].
    exists (f, g). split; [reflexivity|].
    apply filter_In. split.
    + apply in_flat_map. exists f. split; [now apply list_elem_of_In|].
      apply in_map_iff. exists g. split; [reflexivity|].
      apply filter_In. split; [now apply list_elem_of_In|].
      now apply Z.eqb_eq.
    + simpl. rewrite H1, H3, H4, Hact, Z.eqb_refl. reflexivity.
Qed.

Lemma staff_facility_row_iff (rows : list StaffFacility.t)
    (facilities : list Facility.t) (sid : Z) (g : StaffFacility.t) :
  g ∈ StaffFacility.get_staff_facilities rows facilities sid <->
  g ∈ rows /\ StaffFacility.staff_id g = sid /\
  StaffFacility.can_access g = true /\ StaffFacility.is_active g = true /\
  exists f, f ∈ facilities /\ Facility.id f = StaffFacility.facility_id g /\
            Facility.is_active f = true.
Proof.
  unfold StaffFacility.get_staff_facilities.
  rewrite (proj1 (unique_list_spec _ [])).
  rewrite list_elem_of_In, in_map_iff. split.
  - intros [[[g' f] [Hg Hin]] _]. simpl in Hg. subst g'.
    apply filter_In in Hin. destruct Hin as [Hin Hact]. simpl in Hact.
    rewrite eqb_true_iff_bool in Hact.
    apply in_flat_map in Hin. destruct Hin as [g0 [Hg0 Hpair]].
    apply in_map_iff in Hpair. destruct Hpair as [f0 [Heq Hf0]].
    injection Heq as -> ->. apply filter_In in Hf0. destruct Hf0 as [Hf Hid].
    apply filter_In in Hg0. destruct Hg0 as [Hg Hcond].
    rewrite !andb_true_iff, !eqb_true_iff_bool, Z.eqb_eq in Hcond.
    apply Z.eqb_eq in Hid. destruct Hcond as [[H1 H2] H3].
    split; [now apply list_elem_of_In|]. repeat split; try assumption.
    exists f. split; [now apply list_elem_of_In|]. split; assumption.
  - intros (Hg & H1 & H2 & H3 & f & Hf & Hid & Hact).
    split; [|apply not_elem_of_nil].
    exists (g, f). split; [reflexivity|].
    apply filter_In. split.
    + apply in_flat_map. exists g. split.
      * apply filter_In. split; [now apply list_elem_of_In|].
        now rewrite H1, H2, H3, Z.eqb_refl.
      * apply in_map_iff. exists f. split; [reflexivity|].
        apply filter_In. split; [now apply list_elem_of_In|]. now apply Z.eqb_eq.
    + simpl. now rewrite Hact.
Qed.

(** X15.  The two listings agree.  [StaffFacility.get_staff_facilities]
    returns exactly the active, access-granting grant rows of the staff
    member whose facility exists and is active, each once; and a facility
    is in [Staff.get_accessible_facilities] exactly when it is an active
    facility of the table referenced by one of those grant rows. *)
Theorem staff_facility_listings_agree (u : Staff.t)
    (facilities : list Facility.t) (rows : list StaffFacility.t) :
  (forall g,
     g ∈ StaffFacility.get_staff_facilities rows facilities (Staff.id u) <->
     g ∈ rows /\ StaffFacility.staff_id g = Staff.id u /\
     StaffFacility.can_access g = true /\ StaffFacility.is_active g = true /\
     exists f, f ∈ facilities /\ Facility.id f = StaffFacility.facility_id g /\
               Facility.is_active f = true) /\
  NoDup (StaffFacility.get_staff_facilities rows facilities (Staff.id u)) /\
  (forall f,
     f ∈ Staff.get_accessible_facilities u facilities rows <->
     f ∈ facilities /\ Facility.is_active f = true /\
     exists g, g ∈ StaffFacility.get_staff_facilities rows facilities (Staff.id u)
               /\ StaffFacility.facility_id g = Facility.id f).
Proof.
  split; [intros g; apply staff_facility_row_iff|].
  split; [apply unique_list_spec|].
  intros f. rewrite accessible_facility_iff, has_facility_access_iff. split.
  - intros (Hf & Hact & g & Hg & H1 & H2 & H3 & H4).
    split; [assumption|]. split; [assumption|]. exists g. split; [|assumption].
    apply staff_facility_row_iff. repeat split; try assumption.
    exists f. auto.
  - intros (Hf & Hact & g & Hg & Hid). split; [assumption|]. split; [assumption|].
    apply staff_facility_row_iff in Hg.
    destruct Hg as (Hg & H1 & H2 & H3 & _).
    exists g. split; [assumption|]. repeat split; assumption.
Qed.

End StaffFacilityListings.

(** ** Assigning staff: what the view changes *)
Section AssignStaffEffects.
Import App Security FacilityRoutes Invariants Props Sample.


Lemma existing_assignment_none (sid F : Z) (d : Db) :
  existing_assignment sid F d = None <->
  forall g, g ∈ staff_facilities d -> ~ row_of_pair sid F g.
Proof.
  split.
  - intros Hnone g Hg Hrow.
    destruct (proj2 (existing_assignment_some sid F d)) as [x Hx]; [eauto|].
    congruence.
  - intros Hall. destruct (existing_assignment sid F d) as [g|] eqn:E;
      [|reflexivity].
    destruct (proj1 (existing_assignment_some sid F d)) as [x [Hx Hrow]]; [eauto|].
    now destruct (Hall x Hx).
Qed.


(** Every path of the view: the ledger is left as it was or grows by one
    row of a pair that had none; the other tables are not written. *)
Lemma assign_staff_outcome (ctx : Ctx) (F : Z) (request : Request) (w : World) :
  let w' := snd (run ctx (assign_staff F request ctx) w) in
  staff (db w') = staff (db w) /\ facilities (db w') = facilities (db w) /\
  session w' = session w /\
  (staff_facilities (db w') = staff_facilities (db w) \/
   exists sid,
     existing_assignment sid F (db w) = None /\
     staff_facilities (db w')
     = staff_facilities (db w) ++ [new_assignment ctx (form request) sid F (db w)]).
Proof.
  unfold assign_staff. cbn [run].
  destruct (Facility.query_get F (facilities (db w))) as [facility|];
    [|simpl; auto].
  destruct (String.eqb (method request) "POST"); [|cbn [run]; simpl; auto].
  destruct (Py.int_of_str (form request !! "staff_id")) as [sid|];
    [|simpl; auto].
  cbn [run]. destruct (existing_assignment sid F (db w)) eqn:Hex;
    [simpl; auto |].
  cbn [run]. destruct (next_commit_frame w) as (Hdb & _ & Hsess & _).
  destruct (next_commit w) as [[e|] w1]; simpl in Hdb, Hsess.
  - cbn [run snd]. rewrite Hdb, Hsess. auto.
  - cbn [run snd]. unfold flash, set_flashes. cbn [db session].
    rewrite audit_log_db.
    assert (forall a e i b af x, session (audit_log ctx a e i b af x) = session x)
      as Haudit.
    { intros a e i b af x. unfold audit_log. destruct (current_user ctx); [|reflexivity].
      destruct (next_commit_frame x) as (_ & _ & Hs & _).
      destruct (next_commit x) as [[err|] x']; simpl in *; assumption. }
    rewrite Haudit. simpl. rewrite Hdb, Hsess.
    repeat split; try reflexivity. right. exists sid. auto.
Qed.

(** X16.  The assignment view keeps the ledger's uniqueness constraint and
    never rewrites history: on every path (any method, form, user and
    commit outcome) the rows that existed are still there, unchanged and in
    place, at most one row is added, the staff and facility tables and the
    session are not written, and a ledger with at most one row per
    (staff, facility) pair still has at most one row per pair. *)
Theorem assign_staff_preserves_ledger (ctx : Ctx) (F : Z) (request : Request)
    (w : World) :
  let w' := snd (run ctx (assign_staff F request ctx) w) in
  (exists added, staff_facilities (db w') = staff_facilities (db w) ++ added /\
                 (length added <= 1)%nat) /\
  staff (db w') = staff (db w) /\ facilities (db w') = facilities (db w) /\
  session w' = session w /\
  (pairs_unique (staff_facilities (db w)) ->
   pairs_unique (staff_facilities (db w'))).
Proof.
  destruct (assign_staff_outcome ctx F request w) as (Hstaff & Hfac & Hsess & Hrows).
  cbv zeta. split; [|split; [exact Hstaff | split; [exact Hfac | split;
                                                     [exact Hsess|]]]].
  - destruct Hrows as [Hsame | [sid [_ Hadd]]].
    + exists []. rewrite app_nil_r. auto.
    + eexists [_]. split; [exact Hadd | auto].
  - intros Huniq. destruct Hrows as [-> | [sid [Hnone ->]]]; [exact Huniq|].
    unfold pairs_unique in *. rewrite map_app. simpl.
    apply NoDup_app. split; [exact Huniq|]. split; [|apply NoDup_singleton].
    intros pair Hin Hnew. apply list_elem_of_singleton in Hnew. subst pair.
    apply list_elem_of_In, in_map_iff in Hin. destruct Hin as [g [Hpair Hg]].
    injection Hpair as H1 H2. apply list_elem_of_In in Hg.
    rewrite existing_assignment_none in Hnone.
    apply (Hnone g Hg). split; assumption.
Qed.

Lemma assign_staff_preserves_ledger_witness :
  pairs_unique
    (staff_facilities
       (db (snd (run (as_user admin) (assign_staff 1 (assign_form "5") (as_user admin))
                   (empty_world two_sites))))).
Proof.
  destruct (assign_staff_preserves_ledger (as_user admin) 1 (assign_form "5")
              (empty_world two_sites)) as (_ & _ & _ & _ & Huniq).
  apply Huniq. apply NoDup_nil_2.
Defined.



End AssignStaffEffects.

(** ** The session selector: reads and writes *)
Section SessionSelectorMore.
Import App Session SessionGuards Sample.

Lemma query_get_some (fid : Z) (rows : list Facility.t) (f : Facility.t) :
  Facility.query_get fid rows = Some f -> f ∈ rows /\ Facility.id f = fid.
Proof.
  unfold Facility.query_get. intros H. apply find_some in H.
  destruct H as [Hin Hid]. split; [now apply list_elem_of_In | now apply Z.eqb_eq].
Qed.

(** What a read of the selection does, case by case. *)
Lemma get_current_facility_id_cases (ctx : Ctx) (w : World) :
  (exists u fid, current_user ctx = Some u /\
                 session w !! current_facility_id = Some fid /\ fid <> 0 /\
                 Staff.has_facility_access u (staff_facilities (db w)) fid = true /\
                 get_current_facility_id ctx w = (Some fid, w) /\
                 get_current_facility ctx w
                 = (Facility.query_get fid (facilities (db w)), w)) \/
  (get_current_facility_id ctx w = (None, w) /\
   get_current_facility ctx w = (None, w)) \/
  (exists u fid, current_user ctx = Some u /\
                 session w !! current_facility_id = Some fid /\ fid <> 0 /\
                 Staff.has_facility_access u (staff_facilities (db w)) fid = false /\
                 get_current_facility_id ctx w
                 = (None, set_session (delete current_facility_id (session w)) w) /\
                 get_current_facility ctx w
                 = (None, set_session (delete current_facility_id (session w)) w)).
Proof.
  unfold get_current_facility_id, get_current_facility.
  destruct (current_user ctx) as [u|]; [|right; left; auto].
  destruct (session w !! current_facility_id) as [fid|] eqn:Hs;
    [|right; left; auto].
  destruct (Z.eqb_spec fid 0) as [H0|H0]; [right; left; auto|].
  destruct (Staff.has_facility_access u (staff_facilities (db w)) fid) eqn:Hacc;
    simpl.
  - left. exists u, fid. auto 10.
  - right. right. exists u, fid. auto 10.
Qed.

(** X18.  Selecting and reading back: after [set_current_facility] has
    accepted a facility id other than 0, [get_current_facility_id] returns
    that id and [get_current_facility] the facility row with that primary
    key, both without changing anything; a refused selection changes
    nothing at all. *)
Theorem select_then_read (ctx : Ctx) (F : Z) (w w1 : World) :
  (set_current_facility ctx F w = (true, w1) -> F <> 0 ->
   get_current_facility_id ctx w1 = (Some F, w1) /\
   get_current_facility ctx w1 = (Facility.query_get F (facilities (db w1)), w1) /\
   db w1 = db w) /\
  (set_current_facility ctx F w = (false, w1) -> w1 = w).
Proof.
  split.
  - intros Hset Hnz.
    destruct (set_current_facility_true ctx F w w1 Hset) as [u [Hu [Hacc ->]]].
    unfold get_current_facility_id, get_current_facility. rewrite Hu. simpl.
    rewrite lookup_insert_eq.
    destruct (Z.eqb_spec F 0) as [?|_]; [contradiction|].
    rewrite Hacc. simpl. auto.
  - unfold set_current_facility. destruct (current_user ctx) as [u|].
    + destruct (Staff.has_facility_access u (staff_facilities (db w)) F); simpl;
        [discriminate | now intros [= <-]].
    + now intros [= <-].
Qed.

Lemma select_then_read_witness :
  let w := empty_world (mkDb [cashier] [phc001] [grant 1 5 1 true]) in
  let w1 := snd (set_current_facility (as_user cashier) 1 w) in
  fst (get_current_facility_id (as_user cashier) w1) = Some 1 /\
  fst (get_current_facility (as_user cashier) w1) = Some phc001 /\
  snd (set_current_facility (as_user cashier) 2 w) = w.
Proof.
  cbv zeta.
  set (w := empty_world (mkDb [cashier] [phc001] [grant 1 5 1 true])).
  destruct (select_then_read (as_user cashier) 1 w
              (snd (set_current_facility (as_user cashier) 1 w)))
    as [Hok _].
  destruct (select_then_read (as_user cashier) 2 w
              (snd (set_current_facility (as_user cashier) 2 w)))
    as [_ Hrefused].
  destruct (Hok eq_refl ltac:(discriminate)) as (Hid & Hfac & _).
  split; [now rewrite Hid|]. split; [now rewrite Hfac|].
  apply Hrefused. reflexivity.
Defined.

(** X19.  The selector never serves what the actor may not see: when
    [get_current_facility_id] returns an id, or [get_current_facility] a
    facility, the request is authenticated, the id is the one stored in the
    session, the actor has an active, access-granting grant row for it
    right now, and the returned facility is the table row with that id; the
    world is left untouched. *)
Theorem served_facility_is_accessible (ctx : Ctx) (w : World) :
  (forall fid w', get_current_facility_id ctx w = (Some fid, w') ->
     w' = w /\ session w !! current_facility_id = Some fid /\
     exists u, current_user ctx = Some u /\
               Staff.has_facility_access u (staff_facilities (db w)) fid = true) /\
  (forall f w', get_current_facility ctx w = (Some f, w') ->
     w' = w /\ session w !! current_facility_id = Some (Facility.id f) /\
     f ∈ facilities (db w) /\
     exists u, current_user ctx = Some u /\
               Staff.has_facility_access u (staff_facilities (db w))
                                         (Facility.id f) = true).
Proof.
  destruct (get_current_facility_id_cases ctx w)
    as [(u & fid & Hu & Hs & Hnz & Hacc & Hid & Hfac)
       | [[Hid Hfac] | (u & fid & Hu & Hs & Hnz & Hacc & Hid & Hfac)]];
    rewrite Hid, Hfac; split; intros x w' H; try discriminate H.
  - injection H as <- <-. eauto.
  - injection H as Hq <-. apply query_get_some in Hq. destruct Hq as [Hin <-].
    eauto 6.
Qed.

Lemma served_facility_is_accessible_witness :
  let w := set_session (<[current_facility_id := 1]> ∅)
             (empty_world (mkDb [cashier] [phc001] [grant 1 5 1 true])) in
  Staff.has_facility_access cashier (staff_facilities (db w)) 1 = true.
Proof.
  cbv zeta.
  set (w := set_session (<[current_facility_id := 1]> ∅)
              (empty_world (mkDb [cashier] [phc001] [grant 1 5 1 true]))).
  destruct (served_facility_is_accessible (as_user cashier) w) as [Hid _].
  destruct (Hid 1 w eq_refl) as (_ & _ & u & Hu & Hacc).
  injection Hu as <-. exact Hacc.
Defined.

(** X20.  Reading the selection is stable and only ever forgets: a read
    leaves the store, the audit trail, the flashes and the log alone; the
    session afterwards is the session before, or the session before without
    the selection key; and reading again returns the same answer and
    changes nothing more. *)
Theorem reading_selection_is_stable (ctx : Ctx) (w : World) :
  let r := get_current_facility ctx w in
  db (snd r) = db w /\ audit_logs (snd r) = audit_logs w /\
  flashes (snd r) = flashes w /\ logger (snd r) = logger w /\
  (session (snd r) = session w \/
   session (snd r) = delete current_facility_id (session w)) /\
  get_current_facility ctx (snd r) = r.
Proof.
  destruct (get_current_facility_id_cases ctx w)
    as [(u & fid & Hu & Hs & Hnz & Hacc & _ & Hfac)
       | [[_ Hfac] | (u & fid & Hu & Hs & Hnz & Hacc & _ & Hfac)]];
    cbv zeta; rewrite Hfac; cbn [fst snd].
  - rewrite Hfac. auto 10.
  - rewrite Hfac. auto 10.
  - repeat split; auto.
    unfold get_current_facility. rewrite Hu. simpl.
    now rewrite lookup_delete_eq.
Qed.

(** X21.  [require_facility_access] lets the view run only under a served
    facility: either the view runs on the unchanged world and the actor has
    a live grant for the selected, existing facility; or the request is
    redirected to the selection page with a warning, the view does not run
    and neither the store nor the audit trail changes. *)
Theorem require_facility_access_decision (f : Handler) (ctx : Ctx) (w : World) :
  (require_facility_access f ctx w = Security.run ctx f w /\
   exists u fid facility,
     current_user ctx = Some u /\
     session w !! current_facility_id = Some fid /\
     Staff.has_facility_access u (staff_facilities (db w)) fid = true /\
     Facility.query_get fid (facilities (db w)) = Some facility) \/
  (exists w', require_facility_access f ctx w
              = (Redirect "facility.select",
                 flash "Please select a facility to continue" "warning" w') /\
              db w' = db w /\ audit_logs w' = audit_logs w).
Proof.
  unfold require_facility_access.
  destruct (get_current_facility_id_cases ctx w)
    as [(u & fid & Hu & Hs & Hnz & Hacc & _ & Hfac)
       | [[_ Hfac] | (u & fid & Hu & Hs & Hnz & Hacc & _ & Hfac)]];
    rewrite Hfac.
  - destruct (Facility.query_get fid (facilities (db w))) as [facility|] eqn:Hq.
    + left. split; [reflexivity|]. exists u, fid, facility. auto.
    + right. exists w. auto.
  - right. exists w. auto.
  - right. eexists. split; [reflexivity|]. auto.
Qed.

(** X22.  [filter_by_facility] scopes a query only when it is given a
    non-zero facility id and the model has a [facility_id] column: then the
    result is exactly the rows of that facility, in order; with no id, with
    the id 0, or for a model without the column, the query comes back
    whole, unscoped. *)
Theorem filter_by_facility_scope {A : Type} (column : option (A -> option Z))
    (query : list A) (facility_id : option Z) :
  (forall col fid, column = Some col -> facility_id = Some fid -> fid <> 0 ->
     filter_by_facility column query facility_id
     = List.filter (fun row => bool_decide (col row = Some fid)) query /\
     forall row, row ∈ filter_by_facility column query facility_id <->
                 row ∈ query /\ col row = Some fid) /\
  (facility_id = None \/ facility_id = Some 0 \/ column = None ->
   filter_by_facility column query facility_id = query).
Proof.
  unfold filter_by_facility. split.
  - intros col fid -> -> Hnz. destruct (Z.eqb_spec fid 0) as [?|_]; [contradiction|].
    assert (forall row, match col row with
                        | Some v => Z.eqb v fid
                        | None => false
                        end = bool_decide (col row = Some fid)) as Hext.
    { intros row. destruct (col row) as [v|].
      - destruct (Z.eqb_spec v fid) as [->|Hne].
        + now rewrite bool_decide_eq_true_2.
        + rewrite bool_decide_eq_false_2; [reflexivity | congruence].
      - now rewrite bool_decide_eq_false_2. }
    rewrite (List.filter_ext _ _ Hext). split; [reflexivity|].
    intros row. rewrite list_elem_of_In, filter_In, <- list_elem_of_In.
    now rewrite bool_decide_eq_true.
  - intros [-> | [-> | ->]]; [reflexivity | reflexivity |].
    destruct facility_id as [fid|]; [|reflexivity].
    now destruct (Z.eqb fid 0).
Qed.

Lemma filter_by_facility_scope_witness :
  filter_by_facility (Some (fun g => Some (StaffFacility.facility_id g)))
    [grant 1 5 1 true; grant 2 5 2 true] (Some 2) = [grant 2 5 2 true] /\
  filter_by_facility (Some (fun g => Some (StaffFacility.facility_id g)))
    [grant 1 5 1 true; grant 2 5 2 true] (Some 0)
  = [grant 1 5 1 true; grant 2 5 2 true].
Proof.
  destruct (filter_by_facility_scope
              (Some (fun g => Some (StaffFacility.facility_id g)))
              [grant 1 5 1 true; grant 2 5 2 true] (Some 2)) as [Hscoped _].
  destruct (filter_by_facility_scope
              (Some (fun g => Some (StaffFacility.facility_id g)))
              [grant 1 5 1 true; grant 2 5 2 true] (Some 0)) as [_ Hwhole].
  split.
  - destruct (Hscoped _ 2 eq_refl eq_refl ltac:(discriminate)) as [Heq _].
    rewrite Heq. reflexivity.
  - apply Hwhole. right. left. reflexivity.
Defined.

End SessionSelectorMore.

(** ** Selecting and switching the facility *)
Section FacilityViewsFacts.
Import App Session FacilityViews Invariants Sample.

Lemma query_get_unique (rows : list Facility.t) (f : Facility.t) :
  facility_ids_unique rows -> f ∈ rows ->
  Facility.query_get (Facility.id f) rows = Some f.
Proof.
  intros Huniq Hf. unfold Facility.query_get.
  destruct (List.find _ rows) as [g|] eqn:E.
  - apply find_some in E. destruct E as [Hg Hid]. apply Z.eqb_eq in Hid.
    f_equal. apply Huniq; [now apply list_elem_of_In | assumption | assumption].
  - apply list_elem_of_In in Hf. apply (find_none _ _ E) in Hf.
    simpl in Hf. rewrite Z.eqb_refl in Hf. discriminate.
Qed.

(** X23.  The selection page: without any accessible facility the actor
    is sent to logout with an error; with several, the list is shown and
    nothing changes; with exactly one, that facility is selected on the
    actor's behalf (the selection cannot be refused, since a listed
    facility passes the access check) and, its id not being 0 and facility
    ids being unique, the next read of the current facility serves it. *)
Theorem select_view_outcomes (ctx : Ctx) (w : World) :
  (get_user_facilities ctx w = [] ->
   select ctx w = (Redirect "auth.logout",
                   flash "You do not have access to any facilities" "error" w)) /\
  (forall only, get_user_facilities ctx w = [only] ->
     select ctx w
     = (Redirect "dashboard.index",
        flash ("Welcome to " ++ Facility.name only)%string "success"
          (set_session (<[current_facility_id := Facility.id only]> (session w)) w))
     /\
     (Facility.id only <> 0 -> facility_ids_unique (facilities (db w)) ->
      fst (get_current_facility ctx (snd (select ctx w))) = Some only)) /\
  (forall f g rest, get_user_facilities ctx w = f :: g :: rest ->
     select ctx w = (Render "facility/select.html", w)).
Proof.
  unfold select. split; [|split].
  - intros ->. reflexivity.
  - intros only Hone. rewrite Hone.
    assert (exists u, current_user ctx = Some u /\
                      only ∈ facilities (db w) /\
                      Staff.has_facility_access u (staff_facilities (db w))
                                                (Facility.id only) = true)
      as (u & Hu & Hin & Hacc).
    { unfold get_user_facilities in Hone.
      destruct (current_user ctx) as [u|]; [|discriminate].
      exists u. split; [reflexivity|].
      assert (only ∈ Staff.get_accessible_facilities u (facilities (db w))
                       (staff_facilities (db w))) as Hmem
          by (rewrite Hone; apply list_elem_of_here).
      apply accessible_facility_iff in Hmem. tauto. }
    assert (set_current_facility ctx (Facility.id only) w
            = (true, set_session
                       (<[current_facility_id := Facility.id only]> (session w)) w))
      as Hset.
    { unfold set_current_facility. now rewrite Hu, Hacc. }
    rewrite Hset. cbn [snd]. split; [reflexivity|].
    intros Hnz Huniq. cbn [snd].
    unfold get_current_facility. rewrite Hu. unfold flash, set_flashes. simpl.
    rewrite lookup_insert_eq.
    destruct (Z.eqb_spec (Facility.id only) 0) as [?|_]; [contradiction|].
    rewrite Hacc. simpl. now apply query_get_unique.
  - intros f g rest ->. reflexivity.
Qed.

Lemma select_view_outcomes_witness :
  let w := empty_world (mkDb [cashier] [phc001; phc002] [grant 1 5 2 true]) in
  fst (select (as_user cashier) w) = Redirect "dashboard.index" /\
  fst (get_current_facility (as_user cashier) (snd (select (as_user cashier) w)))
  = Some phc002 /\
  fst (select (as_user cashier) (empty_world two_sites)) = Redirect "auth.logout".
Proof.
  cbv zeta.
  set (w := empty_world (mkDb [cashier] [phc001; phc002] [grant 1 5 2 true])).
  destruct (select_view_outcomes (as_user cashier) w) as (_ & Hone & _).
  destruct (select_view_outcomes (as_user cashier) (empty_world two_sites))
    as (Hnone & _).
  destruct (Hone phc002 eq_refl) as [Hsel Hread].
  split; [now rewrite Hsel|]. split.
  - apply Hread; [discriminate|].
    intros f g Hf Hg Hid.
    apply elem_of_cons in Hf. rewrite list_elem_of_singleton in Hf.
    apply elem_of_cons in Hg. rewrite list_elem_of_singleton in Hg.
    destruct Hf as [->| ->], Hg as [->| ->];
      first [reflexivity | discriminate Hid].
  - now rewrite (Hnone eq_refl).
Defined.

(** X24.  Switching facility: the view answers with the dashboard redirect
    only when the actor holds a live grant for the requested id and the
    facility row exists, and then (for an id other than 0) the next read
    serves exactly that facility; a refused switch leaves the session as it
    was and only flashes "Access denied"; the store is never written. *)
Theorem switch_view_outcomes (F : Z) (ctx : Ctx) (w : World) :
  db (snd (switch F ctx w)) = db w /\
  (fst (switch F ctx w) = Redirect "dashboard.index" ->
   (exists u, current_user ctx = Some u /\
              Staff.has_facility_access u (staff_facilities (db w)) F = true) /\
   session (snd (switch F ctx w)) !! current_facility_id = Some F /\
   (F <> 0 ->
    exists facility,
      fst (get_current_facility ctx (snd (switch F ctx w))) = Some facility /\
      Facility.id facility = F)) /\
  (fst (switch F ctx w) = Redirect "facility.select" ->
   snd (switch F ctx w) = flash "Access denied to this facility" "error" w).
Proof.
  unfold switch.
  destruct (set_current_facility ctx F w) as [[|] w1] eqn:Hset.
  - destruct (set_current_facility_true ctx F w w1 Hset) as [u [Hu [Hacc ->]]].
    cbn [db set_session facilities].
    destruct (Facility.query_get F (facilities (db w))) as [facility|] eqn:Hq;
      cbn [fst snd].
    + split; [reflexivity|]. split; [|discriminate].
      intros _. split; [eauto|]. split.
      * unfold flash, set_flashes. simpl. apply lookup_insert_eq.
      * intros Hnz. exists facility.
        unfold get_current_facility. rewrite Hu. unfold flash, set_flashes. simpl.
        rewrite lookup_insert_eq.
        destruct (Z.eqb_spec F 0) as [?|_]; [contradiction|].
        rewrite Hacc. simpl. split; [exact Hq|].
        now destruct (query_get_some _ _ _ Hq).
    + split; [reflexivity|]. split; discriminate.
  - assert (w1 = w) as ->.
    { unfold set_current_facility in Hset.
      destruct (current_user ctx) as [u|]; [|now injection Hset].
      destruct (Staff.has_facility_access u (staff_facilities (db w)) F);
        simpl in Hset; [discriminate | now injection Hset]. }
    cbn [fst snd]. split; [reflexivity|]. split; [discriminate | reflexivity].
Qed.

Lemma switch_view_outcomes_witness :
  let w := empty_world (mkDb [cashier] [phc001; phc002] [grant 1 5 2 true]) in
  fst (switch 2 (as_user cashier) w) = Redirect "dashboard.index" /\
  session (snd (switch 2 (as_user cashier) w)) !! current_facility_id = Some 2 /\
  snd (switch 1 (as_user cashier) w)
  = flash "Access denied to this facility" "error" w.
Proof.
  cbv zeta.
  set (w := empty_world (mkDb [cashier] [phc001; phc002] [grant 1 5 2 true])).
  destruct (switch_view_outcomes 2 (as_user cashier) w) as (_ & Hok & _).
  destruct (switch_view_outcomes 1 (as_user cashier) w) as (_ & _ & Hrefused).
  split; [reflexivity|]. split.
  - destruct (Hok eq_refl) as (_ & Hsession & _). exact Hsession.
  - apply Hrefused. reflexivity.
Defined.

End FacilityViewsFacts.

(** ** Login and logout *)
Section AuthFacts.
Import App Security FacilityQueries AuthViews Sample.

Variable check_password : Staff.t -> string -> bool.
Variable staff_name : Staff.t -> string.

Lemma audit_log_anonymous (ctx : Ctx) action entity entity_id b a (w : World) :
  current_user ctx = None ->
  audit_log ctx action entity entity_id b a w = w.
Proof. intros H. unfold audit_log. now rewrite H. Qed.

Lemma find_by_email_some (rows : list Staff.t) (email : string) (u : Staff.t) :
  find_by_email rows email = Some u -> u ∈ rows /\ Staff.email u = email.
Proof.
  unfold find_by_email. intros H. apply first_filter_elem in H.
  destruct H as [Hin He]. split; [assumption | now apply String.eqb_eq].
Qed.

(** X25.  The login view authenticates only valid credentials of an
    active account: whenever an anonymous request comes out authenticated
    as [u], the request was a POST, [u] is the staff row found by the
    posted e-mail address, the posted password passed [check_password] and
    the account is active.  A GET, a missing field, an unknown address, a
    wrong password or a deactivated account never authenticates. *)
Theorem login_authenticates_valid_credentials (request : Request)
    (args : gmap string string) (remote_addr : option string)
    (ctx : Ctx) (w : World) (u : Staff.t) :
  current_user ctx = None ->
  current_user (snd (login check_password staff_name request args remote_addr ctx w))
  = Some u ->
  method request = "POST" /\
  exists email password,
    form request !! "email" = Some email /\
    form request !! "password" = Some password /\
    find_by_email (staff (db w)) email = Some u /\
    u ∈ staff (db w) /\ Staff.email u = email /\
    check_password u password = true /\ Staff.active u = true.
Proof.
  intros Hanon. unfold login, is_authenticated. rewrite Hanon. cbv zeta.
  destruct (String.eqb_spec (method request) "POST") as [Hpost|_];
    [|simpl; congruence].
  destruct (negb (provided (form request !! "email"))
            || negb (provided (form request !! "password"))) eqn:Hprov;
    [simpl; congruence|].
  apply orb_false_iff in Hprov. destruct Hprov as [H1 H2].
  apply negb_false_iff in H1, H2.
  destruct (form request !! "email") as [email|]; [|discriminate H1].
  destruct (form request !! "password") as [password|]; [|discriminate H2].
  simpl default.
  destruct (find_by_email (staff (db w)) email) as [v|] eqn:Hfind;
    [|simpl; congruence].
  destruct (check_password v password && Staff.active v) eqn:Hok;
    [|simpl; congruence].
  simpl. intros [= ->]. apply andb_true_iff in Hok. destruct Hok as [Hpw Hact].
  destruct (find_by_email_some _ _ _ Hfind) as [Hin Hmail].
  split; [assumption|]. exists email, password. auto 10.
Qed.

(** X26.  A login attempt that does not authenticate leaves no trace in
    the audit trail: the request stays anonymous, the view answers with the
    login page, no audit entry is added and no commit is even attempted
    (the [audit_log] call of the failure branch runs for the anonymous
    user), and the store is untouched. *)
Theorem failed_login_is_not_recorded (request : Request)
    (args : gmap string string) (remote_addr : option string)
    (ctx : Ctx) (w : World) :
  current_user ctx = None ->
  let result := login check_password staff_name request args remote_addr ctx w in
  current_user (snd result) = None ->
  fst (fst result) = Render "auth/login.html" /\
  audit_logs (snd (fst result)) = audit_logs w /\
  commit_outcomes (snd (fst result)) = commit_outcomes w /\
  db (snd (fst result)) = db w /\ logger (snd (fst result)) = logger w.
Proof.
  intros Hanon. unfold login, is_authenticated. rewrite Hanon. cbv zeta.
  destruct (String.eqb (method request) "POST"); [|simpl; auto].
  destruct (negb (provided (form request !! "email"))
            || negb (provided (form request !! "password"))); [simpl; auto|].
  destruct (find_by_email (staff (db w)) (default "" (form request !! "email")))
    as [v|]; [|simpl; auto].
  destruct (check_password v (default "" (form request !! "password"))
            && Staff.active v).
  - simpl. discriminate.
  - rewrite (audit_log_anonymous ctx _ _ _ _ _ w Hanon). simpl. auto.
Qed.

(** X27.  A successful login is recorded under the new identity: when the
    posted credentials are valid for the active account [u] and the store
    accepts the commit, the request continues as [u] and the audit trail
    gains exactly one entry, with actor [u], action [login], entity
    [staff], [u]'s id, and the after-snapshot [success: True] with the
    client address. *)
Theorem successful_login_is_recorded (request : Request)
    (args : gmap string string) (remote_addr : option string)
    (ctx : Ctx) (w : World) (u : Staff.t) (email password : string) :
  current_user ctx = None ->
  method request = "POST" ->
  form request !! "email" = Some email -> email <> "" ->
  form request !! "password" = Some password -> password <> "" ->
  find_by_email (staff (db w)) email = Some u ->
  check_password u password = true -> Staff.active u = true ->
  fst (next_commit w) = None ->
  let result := login check_password staff_name request args remote_addr ctx w in
  current_user (snd result) = Some u /\
  audit_logs (snd (fst result))
  = audit_logs w
      ++ [AuditLog.mk (Some (Staff.id u)) "login" (Py.SStr "staff")
            (Py.SInt (Staff.id u)) None
            (Some [("success", Py.JBool true); ("ip", ip_json remote_addr)])
            None None None None] /\
  db (snd (fst result)) = db w.
Proof.
  intros Hanon Hpost He Hene Hp Hpne Hfind Hpw Hact Hcommit.
  unfold login, is_authenticated. rewrite Hanon, Hpost, He, Hp. cbv zeta.
  change (String.eqb "POST" "POST") with true. cbv iota.
  assert (provided (Some email) = true) as ->
      by (destruct email; [now destruct Hene | reflexivity]).
  assert (provided (Some password) = true) as ->
      by (destruct password; [now destruct Hpne | reflexivity]).
  simpl default. simpl negb. simpl orb. cbv iota.
  rewrite Hfind, Hpw, Hact. simpl andb. cbv iota. cbn [fst snd].
  split; [reflexivity|].
  unfold flash, set_flashes. cbn [audit_logs db].
  unfold audit_log. cbn [current_user].
  destruct (next_commit_frame w) as (Hdb & Hlogs & _).
  destruct (next_commit w) as [o w1]. simpl in Hcommit, Hdb, Hlogs. subst o.
  simpl. now rewrite Hdb, Hlogs.
Qed.

(** X28.  Logout is never recorded: [logout_user] makes the request
    anonymous before [audit_log] is called, so the view adds no audit
    entry and attempts no commit; the former user is anonymous afterwards
    and the facility selection stays in the session. *)
Theorem logout_is_not_recorded (remote_addr : option string) (ctx : Ctx)
    (w : World) :
  let result := logout remote_addr ctx w in
  audit_logs (snd (fst result)) = audit_logs w /\
  commit_outcomes (snd (fst result)) = commit_outcomes w /\
  db (snd (fst result)) = db w /\
  session (snd (fst result)) = session w /\
  fst (fst result) = Redirect "auth.login" /\
  (is_authenticated ctx = true -> current_user (snd result) = None).
Proof.
  unfold logout, unauthorized, is_authenticated.
  destruct (current_user ctx) as [u|] eqn:Hu; cbv zeta; cbn [fst snd].
  - rewrite (audit_log_anonymous (mkCtx None) _ _ _ _ _ w eq_refl).
    repeat split; reflexivity.
  - repeat split; try reflexivity. discriminate.
Qed.

End AuthFacts.

Section AuthExamples.
Import App Security FacilityQueries AuthViews Sample.

(** In the examples a password is accepted when it is ["pw:"] followed by
    the account's address, and the address stands in for the name. *)
Lemma successful_login_is_recorded_witness :
  let check := fun (u : Staff.t) (pw : string) =>
                 String.eqb pw ("pw:" ++ Staff.email u)%string in
  let request :=
    mkRequest "POST"
      (<["email" := "cashier@healthcare.com"]>
         (<["password" := "pw:cashier@healthcare.com"]> ∅)) in
  let result := login check Staff.email request ∅ (Some "10.0.0.7")
                  (mkCtx None) (empty_world two_sites) in
  current_user (snd result) = Some cashier /\
  length (audit_logs (snd (fst result))) = 1%nat.
Proof.
  intros check request.
  assert (form request !! "email" = Some "cashier@healthcare.com") as He
      by (vm_compute; reflexivity).
  assert (form request !! "password" = Some "pw:cashier@healthcare.com") as Hp
      by (vm_compute; reflexivity).
  assert (find_by_email (staff (db (empty_world two_sites)))
            "cashier@healthcare.com" = Some cashier) as Hfind
      by (vm_compute; reflexivity).
  assert (check cashier "pw:cashier@healthcare.com" = true) as Hpw
      by (vm_compute; reflexivity).
  destruct (successful_login_is_recorded check Staff.email request ∅
              (Some "10.0.0.7") (mkCtx None) (empty_world two_sites) cashier
              "cashier@healthcare.com" "pw:cashier@healthcare.com"
              eq_refl eq_refl He ltac:(discriminate) Hp ltac:(discriminate)
              Hfind Hpw eq_refl eq_refl)
    as (Huser & Hlogs & _).
  cbv zeta. split; [exact Huser|]. rewrite Hlogs. reflexivity.
Defined.

Lemma failed_login_is_not_recorded_witness :
  let check := fun (u : Staff.t) (pw : string) =>
                 String.eqb pw ("pw:" ++ Staff.email u)%string in
  let request :=
    mkRequest "POST"
      (<["email" := "cashier@healthcare.com"]> (<["password" := "guess"]> ∅)) in
  let result := login check Staff.email request ∅ (Some "10.0.0.7")
                  (mkCtx None) (empty_world two_sites) in
  audit_logs (snd (fst result)) = [] /\
  commit_outcomes (snd (fst result)) = [].
Proof.
  intros check request.
  assert (current_user
            (snd (login check Staff.email request ∅ (Some "10.0.0.7")
                    (mkCtx None) (empty_world two_sites))) = None) as Hstill
      by (vm_compute; reflexivity).
  destruct (failed_login_is_not_recorded check Staff.email request ∅
              (Some "10.0.0.7") (mkCtx None) (empty_world two_sites)
              eq_refl Hstill) as (_ & Hlogs & Hcommits & _).
  cbv zeta. split; [exact Hlogs | exact Hcommits].
Defined.

Lemma login_authenticates_valid_credentials_witness :
  let check := fun (u : Staff.t) (pw : string) =>
                 String.eqb pw ("pw:" ++ Staff.email u)%string in
  let request :=
    mkRequest "POST"
      (<["email" := "cashier@healthcare.com"]>
         (<["password" := "pw:cashier@healthcare.com"]> ∅)) in
  exists password,
    form request !! "password" = Some password /\
    check cashier password = true /\ Staff.active cashier = true.
Proof.
  intros check request.
  assert (current_user
            (snd (login check Staff.email request ∅ (Some "10.0.0.7")
                    (mkCtx None) (empty_world two_sites))) = Some cashier) as Hin
      by (vm_compute; reflexivity).
  destruct (login_authenticates_valid_credentials check Staff.email request ∅
              (Some "10.0.0.7") (mkCtx None) (empty_world two_sites) cashier
              eq_refl Hin)
    as (_ & email & password & _ & Hp & _ & _ & _ & Hpw & Hact).
  exists password. split; [exact Hp|]. split; [exact Hpw | exact Hact].
Defined.

Lemma logout_is_not_recorded_witness :
  current_user (snd (logout (Some "10.0.0.7") (as_user cashier)
                       (empty_world two_sites))) = None.
Proof.
  destruct (logout_is_not_recorded (Some "10.0.0.7") (as_user cashier)
              (empty_world two_sites)) as (_ & _ & _ & _ & _ & Hanon).
  apply Hanon. reflexivity.
Defined.

End AuthExamples.

(** ** The change summary: edge cases *)
Section ChangeSummaryMore.
Import Invariants Sample.

Lemma dict_get_in (k : string) (d : Py.dict) (v : Py.json) :
  Py.dict_get k d = Some v -> In (k, v) d.
Proof.
  induction d as [|[k' v'] d IH]; simpl; [discriminate|].
  destruct (String.eqb_spec k' k) as [->|Hne].
  - intros [= ->]. now left.
  - intros H. right. auto.
Qed.

Lemma dict_get_unique (k : string) (d : Py.dict) (v : Py.json) :
  NoDup (map fst d) -> In (k, v) d -> Py.dict_get k d = Some v.
Proof.
  induction d as [|[k' v'] d IH]; simpl; [intros _ []|].
  intros Hnd Hin. apply NoDup_cons in Hnd. destruct Hnd as [Hk Hnd].
  destruct Hin as [[= -> ->]|Hin].
  - now rewrite String.eqb_refl.
  - destruct (String.eqb_spec k' k) as [->|Hne]; [|auto].
    exfalso. apply Hk. apply list_elem_of_In.
    apply in_map_iff. exists (k, v). auto.
Qed.

(** Python's [==] is reflexive on the JSON values Python can build. *)
Lemma py_eq_refl : forall v, well_formed v -> Py.py_eq v v = true.
Proof.
  fix IH 1. intros [| b | n | s | l | d] Hwf.
  - reflexivity.
  - simpl. now destruct b.
  - simpl. apply Z.eqb_refl.
  - simpl. apply String.eqb_refl.
  - simpl in *. induction l as [|x l IHl]; [reflexivity|].
    destruct Hwf as [Hx Hl]. rewrite (IH x Hx). simpl. exact (IHl Hl).
  - simpl in Hwf. destruct Hwf as [Hnd Hall].
    assert (forall k v, In (k, v) d -> Py.dict_get k d = Some v) as Hlook
        by (intros k v; now apply dict_get_unique).
    simpl. rewrite Nat.eqb_refl. simpl.
    clear Hnd. revert Hlook. generalize d at 2 3 as whole.
    induction d as [|[k v] d IHd]; intros whole Hlook; [reflexivity|].
    destruct Hall as [Hv Hall].
    rewrite (Hlook k v (or_introl eq_refl)), (IH v Hv). simpl.
    apply (IHd Hall). intros k' v' Hin. apply Hlook. now right.
Qed.

Lemma filter_sublist {A : Type} (P : A -> bool) (l : list A) :
  List.filter P l `sublist_of` l.
Proof.
  induction l as [|x l IH]; simpl; [constructor|].
  destruct (P x); [now apply sublist_skip | now apply sublist_cons].
Qed.

(** X29.  [change_summary] is [None] exactly for an entry without any
    snapshot.  An [update] entry that has a snapshot but lacks a usable
    pair (one side missing, or an empty dictionary on either side) does
    not list fields: it falls back to the generic
    ["Update <entity> <entity_id>"]. *)
Theorem change_summary_presence (e : AuditLog.t) :
  (AuditLog.change_summary e = None <->
   AuditLog.before_json e = None /\ AuditLog.after_json e = None) /\
  (AuditLog.action e = "update" ->
   AuditLog.has_changes e = true ->
   AuditLog.before_json e = None \/ AuditLog.before_json e = Some [] \/
   AuditLog.after_json e = None \/ AuditLog.after_json e = Some [] ->
   AuditLog.change_summary e
   = Some ("Update " ++ Py.format (AuditLog.entity e) ++ " "
             ++ Py.format (AuditLog.entity_id e))%string).
Proof.
  unfold AuditLog.change_summary. split.
  - unfold AuditLog.has_changes.
    destruct (AuditLog.before_json e), (AuditLog.after_json e); simpl;
      repeat match goal with
             | |- context [if ?b then _ else _] => destruct b
             end;
      split; first [discriminate | intros [? ?]; discriminate | auto].
  - intros Haction Hchanges Hedge. rewrite Hchanges. cbn [negb].
    unfold AuditLog.is_create_action, AuditLog.is_delete_action,
      AuditLog.is_update_action. rewrite Haction.
    change (String.eqb "update" "create") with false.
    change (String.eqb "update" "delete") with false.
    change (String.eqb "update" "update") with true. cbv iota.
    assert (AuditLog.truthy (AuditLog.before_json e)
            && AuditLog.truthy (AuditLog.after_json e) = false) as Hfalsy.
    { destruct Hedge as [-> | [-> | [-> | ->]]]; simpl;
        try reflexivity; apply andb_false_r. }
    cbn [andb]. rewrite Hfalsy. reflexivity.
Qed.

Lemma change_summary_presence_witness :
  AuditLog.change_summary
    (AuditLog.mk (Some 5) "update" (Py.SStr "Patient") (Py.SInt 7)
       (Some []) (Some (patient_snapshot "555-0002")) None None None None)
  = Some "Update Patient 7".
Proof.
  rewrite (proj2 (change_summary_presence
                    (AuditLog.mk (Some 5) "update" (Py.SStr "Patient") (Py.SInt 7)
                       (Some []) (Some (patient_snapshot "555-0002"))
                       None None None None))
             eq_refl eq_refl (or_intror (or_introl eq_refl))).
  reflexivity.
Defined.

(** X30.  The changed fields of an update are reported in the order of
    the after snapshot, each key at most once when the snapshot has no
    repeated key; and an update whose before and after snapshots are the
    same well-formed dictionary reports no changed field at all: its
    summary ends after the colon. *)
Theorem changed_fields_order_and_identity (before after : Py.dict) :
  AuditLog.changed_fields before after `sublist_of` Py.dict_keys after /\
  (NoDup (Py.dict_keys after) -> NoDup (AuditLog.changed_fields before after)) /\
  (well_formed (Py.JDict before) ->
   AuditLog.changed_fields before before = [] /\
   forall e, AuditLog.action e = "update" ->
             AuditLog.before_json e = Some before ->
             AuditLog.after_json e = Some before -> before <> [] ->
             AuditLog.change_summary e
             = Some ("Updated " ++ Py.format (AuditLog.entity e) ++ " "
                       ++ Py.format (AuditLog.entity_id e) ++ ": ")%string).
Proof.
  split; [apply filter_sublist|]. split.
  - intros Hnd. eapply sublist_NoDup; [exact Hnd | apply filter_sublist].
  - intros Hwf.
    assert (AuditLog.changed_fields before before = []) as Hnone.
    { unfold AuditLog.changed_fields.
      destruct (List.filter _ (Py.dict_keys before)) as [|k l] eqn:E;
        [reflexivity|].
      assert (In k (k :: l)) as Hk by now left.
      rewrite <- E in Hk. apply filter_In in Hk. destruct Hk as [_ Hcond].
      apply andb_true_iff in Hcond. destruct Hcond as [_ Hcond].
      destruct (Py.dict_get k before) as [b|] eqn:Hb; [|discriminate].
      assert (well_formed b) as Hwfb.
      { apply dict_get_in in Hb. simpl in Hwf. destruct Hwf as [_ Hall].
        clear -Hb Hall. induction before as [|[k' v'] d IH]; [destruct Hb|].
        destruct Hall as [Hv Hall]. destruct Hb as [[= _ ->]|Hb]; auto. }
      rewrite (py_eq_refl b Hwfb) in Hcond. discriminate. }
    split; [exact Hnone|].
    intros e Haction Hb Ha Hne.
    unfold AuditLog.change_summary, AuditLog.has_changes,
      AuditLog.is_create_action, AuditLog.is_delete_action,
      AuditLog.is_update_action, AuditLog.truthy.
    rewrite Haction, Hb, Ha. destruct before as [|b0 rest]; [contradiction|].
    simpl default. rewrite Hnone. reflexivity.
Qed.

Lemma changed_fields_order_and_identity_witness :
  AuditLog.changed_fields (patient_snapshot "555-0001") (patient_snapshot "555-0001")
  = [] /\
  NoDup (AuditLog.changed_fields (patient_snapshot "555-0001")
                                 (patient_snapshot "555-0002")).
Proof.
  destruct (changed_fields_order_and_identity (patient_snapshot "555-0001")
              (patient_snapshot "555-0001")) as (_ & _ & Hsame).
  destruct (changed_fields_order_and_identity (patient_snapshot "555-0001")
              (patient_snapshot "555-0002")) as (_ & Hnodup & _).
  assert (NoDup (Py.dict_keys (patient_snapshot "555-0002"))) as Hkeys.
  { vm_compute.
    repeat (apply NoDup_cons; split;
            [intros Hin; repeat (apply elem_of_cons in Hin;
                                 destruct Hin as [Hin|Hin]; [discriminate Hin|]);
             inversion Hin|]).
    apply NoDup_nil_2. }
  split.
  - apply Hsame. simpl. split; [exact Hkeys | tauto].
  - apply Hnodup, Hkeys.
Defined.

End ChangeSummaryMore.
